(** * LandsatFire v1.0: the pixel classification engine

    A shallow embedding of [LandsatFire_v1_0.py]: the pre-flight shape check,
    the derived metrics, the unambiguous-fire, DN-fold and water detectors,
    the background mask, the potential-fire test with its moving-window
    statistics, and the composition into the classified raster.

    - Reflectance values are IEEE 754 binary64 numbers (NumPy's [float64]),
      taken from the Standard Library's [SpecFloat]: signed zeros,
      infinities, NaN and round-to-nearest-even are all as in the
      arithmetic the script runs on.
    - A NumPy array is a shape together with its items; a [numpy.ma] masked
      array is a data array together with a mask array.
    - A Python exception is a value of [exn]; code that may raise returns a
      [result].
    - [scipy.ndimage.uniform_filter] is a library routine: the theorems on
      [potential_fire] hold for any function in its place, and a model of
      the routine (running mean along each line, reflecting boundary) is
      used where the code is run on a concrete image.
    - The code around the engine is embedded as well: the keyword
      arguments, the selection of the band files by the tag in their names,
      the order of the script up to the classified raster, the base name of
      the output files and the class labels of the export.  What the script
      prints is kept as a list of lines; the file dialog, opening and
      reading a raster are parameters of the script.
    - The optional GeoTIFF output of each function ([write_values]) and the
      GDAL calls of the shapefile export are input and output and are left
      out. *)

From Stdlib Require Import ZArith Bool List Lia String FunctionalExtensionality.
From Stdlib Require Import Ascii DecimalString.
From Stdlib Require Import Floats.SpecFloat.
Import ListNotations.
Local Open Scope Z_scope.

(** ** binary64 arithmetic *)

Module F64.

Definition prec : Z := 53.
Definition emax : Z := 1024.

Definition float : Type := spec_float.

(** Well-formed binary64 data: the mantissa is canonical for its exponent
    and the exponent is in range. *)
Definition valid (x : float) : bool := valid_binary prec emax x.

Definition add : float -> float -> float := SFadd prec emax.
Definition sub : float -> float -> float := SFsub prec emax.
Definition mul : float -> float -> float := SFmul prec emax.
Definition div : float -> float -> float := SFdiv prec emax.
Definition sqrt : float -> float := SFsqrt prec emax.

(** [x < y] and [x > y]; both are [false] as soon as one side is NaN. *)
Definition ltb (x y : float) : bool := SFltb x y.
Definition gtb (x y : float) : bool := SFltb y x.
Definition leb (x y : float) : bool := SFleb x y.

(** The float nearest to an integer, and the float a decimal literal
    [n/d] denotes (both integers are exact, and division rounds to
    nearest, so this is the correctly rounded value of the literal). *)
Definition of_Z (n : Z) : float := binary_normalize prec emax n 0 false.
Definition dec (n d : Z) : float := div (of_Z n) (of_Z d).

Definition zero : float := S754_zero false.
Definition one : float := Eval cbv in of_Z 1.


(** [bool.astype(float)] *)
Definition of_bool (b : bool) : float := if b then one else zero.

End F64.

Abbreviation float := F64.float.

(** ** Python results *)

Inductive exn : Type :=
| TypeError
| ValueError
| RuntimeError.

Inductive result (A : Type) : Type :=
| Return (a : A)
| Raise (e : exn).

Arguments Return {A} a.
Arguments Raise {A} e.

Definition bind {A B : Type} (r : result A) (k : A -> result B) : result B :=
  match r with
  | Return a => k a
  | Raise e => Raise e
  end.

Notation "x <- r ;; k" := (bind r (fun x => k))
  (at level 61, r at next level, right associativity).

(** ** NumPy arrays *)

(** A two-dimensional array: its shape (rows, columns) and its items.  Only
    the items at indices inside the shape belong to the array. *)
Record ndarray (T : Type) : Type := mk_ndarray {
  shape : nat * nat;
  item : nat -> nat -> T
}.

Arguments mk_ndarray {T} shape item.
Arguments shape {T} n.
Arguments item {T} n i j.

(** Elementwise operations.  The script applies them to grids of one shape
    (the shape of its first operand is kept here). *)
Definition map1 {A B : Type} (f : A -> B) (a : ndarray A) : ndarray B :=
  mk_ndarray (shape a) (fun i j => f (item a i j)).

Definition map2 {A B C : Type} (f : A -> B -> C)
  (a : ndarray A) (b : ndarray B) : ndarray C :=
  mk_ndarray (shape a) (fun i j => f (item a i j) (item b i j)).

Definition np_logical_and : ndarray bool -> ndarray bool -> ndarray bool := map2 andb.
Definition np_logical_or : ndarray bool -> ndarray bool -> ndarray bool := map2 orb.
Definition np_invert : ndarray bool -> ndarray bool := map1 negb.

(** [a > c], [a < c] against a scalar and [a > b] against an array. *)
Definition gt_scalar (a : ndarray float) (c : float) : ndarray bool :=
  map1 (fun x => F64.gtb x c) a.
Definition lt_scalar (a : ndarray float) (c : float) : ndarray bool :=
  map1 (fun x => F64.ltb x c) a.
Definition gt_array (a b : ndarray float) : ndarray bool := map2 F64.gtb a b.

(** [a.astype(np.float32)] of a boolean array: 1.0 and 0.0 (the same two
    values in every binary format). *)
Definition astype_float (a : ndarray bool) : ndarray float := map1 F64.of_bool a.

(** A value stored in a [float32] array and read back: rounded to nearest,
    ties to even, to the 24-bit mantissa and the exponent range of binary32
    (beyond it, to an infinity), and written again as the binary64 value it
    is when it enters arithmetic with [float64] operands. *)
Definition float32 (x : float) : float :=
  match x with
  | S754_finite s m e =>
      match binary_normalize 24 128 (cond_Zopp s (Zpos m)) e s with
      | S754_finite s' m' e' =>
          binary_normalize F64.prec F64.emax (cond_Zopp s' (Zpos m')) e' s'
      | y => y
      end
  | _ => x
  end.

(** 8-bit unsigned integers wrap around. *)
Definition uint8 (z : Z) : Z := z mod 256.

Definition astype_uint8 (a : ndarray bool) : ndarray Z :=
  map1 (fun b : bool => if b then 1 else 0) a.

Definition np_zeros_uint8 (s : nat * nat) : ndarray Z :=
  mk_ndarray s (fun _ _ => 0).

Definition add_uint8 (a b : ndarray Z) : ndarray Z :=
  map2 (fun x y => uint8 (x + y)) a b.

Definition mul_uint8_scalar (a : ndarray Z) (k : Z) : ndarray Z :=
  map1 (fun x => uint8 (x * k)) a.

(** *** Slices

    [start:stop] on an axis of length [n], as Python's [slice.indices]
    resolves it: a missing bound is the end of the axis, a negative bound
    counts from the far end, and both are clipped to the axis. *)
Record slice : Type := mk_slice {
  start : option Z;
  stop : option Z
}.

Definition slice_bound (n k : Z) : Z :=
  if k <? 0 then Z.max (k + n) 0 else Z.min k n.

Definition in_slice (s : slice) (n i : nat) : bool :=
  let lo := match start s with None => 0 | Some k => slice_bound (Z.of_nat n) k end in
  let hi := match stop s with None => Z.of_nat n | Some k => slice_bound (Z.of_nat n) k end in
  (lo <=? Z.of_nat i) && (Z.of_nat i <? hi).

Definition slice_all : slice := mk_slice None None.            (* [:]    *)
Definition slice_upto (k : Z) : slice := mk_slice None (Some k). (* [:k]   *)
Definition slice_from (k : Z) : slice := mk_slice (Some k) None. (* [k:]   *)

(** ** numpy.ma masked arrays *)

Record masked_array (T : Type) : Type := mk_masked {
  data : ndarray T;
  mask : ndarray bool
}.

Arguments mk_masked {T} data mask.
Arguments data {T} m.
Arguments mask {T} m.

(** [ma.masked_array(x, m)] *)
Definition ma_masked_array {T : Type} (x : ndarray T) (m : ndarray bool) : masked_array T :=
  mk_masked x m.

(** [m[i, j]]: the constant [masked] where the mask is set, the datum
    otherwise. *)
Definition ma_getitem {T : Type} (m : masked_array T) (i j : nat) : option T :=
  if item (mask m) i j then None else Some (item (data m) i j).

(** A comparison of a masked array with a scalar or a plain array compares
    the data everywhere and keeps the mask. *)
Definition ma_gt_scalar (m : masked_array float) (c : float) : masked_array bool :=
  mk_masked (gt_scalar (data m) c) (mask m).

Definition ma_gt_array (m : masked_array float) (b : ndarray float) : masked_array bool :=
  mk_masked (gt_array (data m) b) (mask m).

(** [np.logical_and] on two masked arrays: the ufunc runs on the data and
    the result is masked where either operand is. *)
Definition ma_logical_and (a b : masked_array bool) : masked_array bool :=
  mk_masked (np_logical_and (data a) (data b)) (np_logical_or (mask a) (mask b)).

(** [m[rows, cols] = v] with an unmasked value on a soft mask: the selected
    items take the value and are unmasked. *)
Definition ma_setitem {T : Type} (m : masked_array T) (rows cols : slice) (v : T)
  : masked_array T :=
  let sel i j :=
    in_slice rows (fst (shape (data m))) i && in_slice cols (snd (shape (data m))) j in
  mk_masked
    (mk_ndarray (shape (data m)) (fun i j => if sel i j then v else item (data m) i j))
    (mk_ndarray (shape (mask m)) (fun i j => if sel i j then false else item (mask m) i j)).

Definition ma_astype_uint8 (m : masked_array bool) : masked_array Z :=
  mk_masked (astype_uint8 (data m)) (mask m).

(** Masked binary operations compute on the data and then put the first
    operand's data back wherever the result is masked. *)
Definition ma_mul_uint8_scalar (m : masked_array Z) (k : Z) : masked_array Z :=
  mk_masked
    (mk_ndarray (shape (data m))
       (fun i j => if item (mask m) i j then item (data m) i j
                   else uint8 (item (data m) i j * k)))
    (mask m).

(** [a + m] for a plain array [a] and a masked array [m] (the masked array's
    reflected addition, with [a] as first operand). *)
Definition ma_radd_uint8 (a : ndarray Z) (m : masked_array Z) : masked_array Z :=
  mk_masked
    (mk_ndarray (shape a)
       (fun i j => if item (mask m) i j then item a i j
                   else uint8 (item a i j + item (data m) i j)))
    (mask m).

(** ** The loaded bands and the derived metrics *)

Record bands : Type := mk_bands {
  band1 : ndarray float;
  band2 : ndarray float;
  band3 : ndarray float;
  band4 : ndarray float;
  band5 : ndarray float;
  band6 : ndarray float;
  band7 : ndarray float
}.

Definition ratio75 (B : bands) : ndarray float := map2 F64.div (band7 B) (band5 B).
Definition ratio76 (B : bands) : ndarray float := map2 F64.div (band7 B) (band6 B).
Definition diff17 (B : bands) : ndarray float := map2 F64.sub (band1 B) (band7 B).
Definition diff75 (B : bands) : ndarray float := map2 F64.sub (band7 B) (band5 B).

(** ** Pre-flight: check_shapes *)

(** What the attribute lookup [shapes_list.count] evaluates to: the tuple's
    bound built-in method. *)
Inductive builtin_method : Type :=
| tuple_count (self : list (nat * nat)).

(** Calling the method: [t.count(x)]. *)
Definition shape_eqb (s t : nat * nat) : bool :=
  Nat.eqb (fst s) (fst t) && Nat.eqb (snd s) (snd t).

Definition call (f : builtin_method) (x : nat * nat) : result Z :=
  match f with
  | tuple_count self => Return (Z.of_nat (List.length (filter (shape_eqb x) self)))
  end.

(** Subscripting the method: [t.count[x]].  A built-in method object has no
    [__getitem__], so the subscription raises [TypeError]. *)
Definition subscript (f : builtin_method) (x : nat * nat) : result Z :=
  Raise TypeError.

Definition check_shapes (B : bands) : result (bool * bool) :=
  let shapes_list :=
    [shape (band1 B); shape (band2 B); shape (band3 B); shape (band4 B);
     shape (band5 B); shape (band6 B); shape (band7 B)] in
  let shapes_list_0 := shape (band1 B) in
  n <- subscript (tuple_count shapes_list) shapes_list_0 ;;
  let shape_test := n =? Z.of_nat (List.length shapes_list) in
  let size_test := (fst shapes_list_0 <? 61)%nat || (snd shapes_list_0 <? 61)%nat in
  Return (shape_test, size_test).

(** ** The detectors *)

Definition unambiguous_fire (B : bands) : ndarray bool :=
  let fire_test_1 := gt_scalar (ratio75 B) (F64.dec 25 10) in
  let fire_test_2 := gt_scalar (diff75 B) (F64.dec 3 10) in
  let fire_test_3 := gt_scalar (band7 B) (F64.dec 5 10) in
  let criterion_1_fire :=
    np_logical_and fire_test_1 (np_logical_and fire_test_2 fire_test_3) in
  criterion_1_fire.

Definition dn_fold (B : bands) : ndarray bool :=
  let dn_fold_test_1 := gt_scalar (band6 B) (F64.dec 8 10) in
  let dn_fold_test_2 := lt_scalar (band1 B) (F64.dec 2 10) in
  let dn_fold_test_3 := gt_scalar (band5 B) (F64.dec 4 10) in
  let dn_fold_test_4 := lt_scalar (band7 B) (F64.dec 1 10) in
  let dn_fold_criterion_1 := np_logical_and dn_fold_test_1 dn_fold_test_2 in
  let dn_fold_criterion_2 := np_logical_or dn_fold_test_3 dn_fold_test_4 in
  let dn_fold_array := np_logical_and dn_fold_criterion_1 dn_fold_criterion_2 in
  dn_fold_array.

Definition water_pixels (B : bands) : ndarray bool :=
  let water_criterion_1 :=
    np_logical_and (gt_array (band4 B) (band5 B)) (gt_array (band5 B) (band6 B)) in
  let water_criterion_2 :=
    np_logical_and (gt_array (band6 B) (band7 B)) (lt_scalar (diff17 B) (F64.dec 2 10)) in
  let water_base_criterion := np_logical_and water_criterion_1 water_criterion_2 in
  let water_criterion_3 := gt_array (band3 B) (band2 B) in
  let water_criterion_4 :=
    np_logical_and
      (np_logical_and (gt_array (band1 B) (band2 B)) (gt_array (band2 B) (band3 B)))
      (gt_array (band3 B) (band4 B)) in
  let water_type_criterion := np_logical_or water_criterion_3 water_criterion_4 in
  let water_pixel_array := np_logical_and water_base_criterion water_type_criterion in
  water_pixel_array.

Definition background (B : bands) (unambiguous_array water_array : ndarray bool)
  : ndarray bool :=
  let background_pix := np_invert (np_logical_or unambiguous_array water_array) in
  let background_pix := np_logical_and background_pix (gt_scalar (band7 B) F64.zero) in
  background_pix.

(** ** The potential-fire test *)

(** [x ** 0.5] on a float array (NumPy evaluates the scalar power 0.5 as a
    square root). *)
Definition power_half (a : ndarray float) : ndarray float := map1 F64.sqrt a.

(** [a[cond] = v] on a plain array. *)
Definition setitem_where {T : Type} (a : ndarray T) (cond : ndarray bool) (v : T)
  : ndarray T :=
  mk_ndarray (shape a) (fun i j => if item cond i j then v else item a i j).

Section PotentialFire.

(** [scipy.ndimage.uniform_filter(input, size=...)] *)
Variable uniform_filter : ndarray float -> Z -> ndarray float.

Section Body.

Variable B : bands.
Variable bg_array : ndarray bool.

Definition bg_inv : ndarray bool := np_invert bg_array.

Definition ma_ratio75 : masked_array float := ma_masked_array (ratio75 B) bg_inv.
Definition ma_ratio76 : masked_array float := ma_masked_array (ratio76 B) bg_inv.
Definition ma_diff75 : masked_array float := ma_masked_array (diff75 B) bg_inv.
Definition ma_band7 : masked_array float := ma_masked_array (band7 B) bg_inv.

Definition potential_test_1 : masked_array bool :=
  ma_logical_and (ma_gt_scalar ma_ratio75 (F64.dec 18 10))
                 (ma_gt_scalar ma_diff75 (F64.dec 17 100)).
Definition potential_test_2 : masked_array bool :=
  ma_gt_scalar ma_ratio76 (F64.dec 16 10).
Definition potential_test_3 : masked_array bool :=
  ma_logical_and potential_test_1 potential_test_2.

(** [bg_mask] is a [float32] array, and the filter returns an array of the
    type of its input: [weights] holds single-precision values, which the
    divisions below take as they are.  (The routine stores the result of
    its first pass in the same array; here the value is rounded once, as it
    is returned.) *)
Definition bg_mask : ndarray float := astype_float bg_array.
Definition weights : ndarray float := map1 float32 (uniform_filter bg_mask 61).

Definition mask_band7 : ndarray float := map2 F64.mul (band7 B) bg_mask.
Definition mask_ratio75 : ndarray float := map2 F64.mul (ratio75 B) bg_mask.

(** Inside [np.errstate(divide='ignore', invalid='ignore')]: the
    divisions below never raise, whatever the weights are. *)
Definition b7_means : ndarray float :=
  map2 F64.div (uniform_filter mask_band7 61) weights.
Definition ratio75_means : ndarray float :=
  map2 F64.div (uniform_filter mask_ratio75 61) weights.

Definition b7_squares : ndarray float :=
  map2 F64.div (uniform_filter (map2 F64.mul mask_band7 mask_band7) 61) weights.
Definition ratio75_squares : ndarray float :=
  map2 F64.div (uniform_filter (map2 F64.mul mask_ratio75 mask_ratio75) 61) weights.

(** [b7_stddev] as first assigned, after [*= 3], and after the
    assignment [b7_stddev[b7_stddev<0.08] = 0.08]. *)
Definition b7_stddev_0 : ndarray float :=
  power_half (map2 F64.sub b7_squares (map2 F64.mul b7_means b7_means)).
Definition ratio75_stddev_0 : ndarray float :=
  power_half (map2 F64.sub ratio75_squares (map2 F64.mul ratio75_means ratio75_means)).

Definition b7_stddev_1 : ndarray float :=
  map1 (fun x => F64.mul x (F64.of_Z 3)) b7_stddev_0.
Definition b7_stddev : ndarray float :=
  setitem_where b7_stddev_1 (lt_scalar b7_stddev_1 (F64.dec 8 100)) (F64.dec 8 100).

Definition ratio75_stddev_1 : ndarray float :=
  map1 (fun x => F64.mul x (F64.of_Z 3)) ratio75_stddev_0.
Definition ratio75_stddev : ndarray float :=
  setitem_where ratio75_stddev_1 (lt_scalar ratio75_stddev_1 (F64.dec 8 10)) (F64.dec 8 10).

Definition potential_test_4 : masked_array bool :=
  ma_logical_and (ma_gt_array ma_ratio75 ratio75_stddev)
                 (ma_gt_array ma_band7 b7_stddev).

(** [potential_array] before the edges are masked. *)
Definition potential_array_0 : masked_array bool :=
  ma_logical_and potential_test_3 potential_test_4.

Definition potential_fire (mask_edges : bool) : masked_array bool :=
  if mask_edges then
    let potential_array := ma_setitem potential_array_0 (slice_upto 30) slice_all false in
    let potential_array := ma_setitem potential_array (slice_from (-30)) slice_all false in
    let potential_array := ma_setitem potential_array slice_all (slice_upto 30) false in
    let potential_array := ma_setitem potential_array slice_all (slice_from (-30)) false in
    potential_array
  else potential_array_0.

End Body.

(** ** Composition *)

Definition make_classified_array
  (dn_fold_array unambiguous_array : ndarray bool)
  (potential_array : masked_array bool) : ndarray Z :=
  let class_arr := np_zeros_uint8 (shape dn_fold_array) in
  let class_arr := add_uint8 class_arr (astype_uint8 dn_fold_array) in
  let class_arr :=
    add_uint8 class_arr (mul_uint8_scalar (astype_uint8 unambiguous_array) 2) in
  let class_arr :=
    ma_radd_uint8 class_arr (ma_mul_uint8_scalar (ma_astype_uint8 potential_array) 3) in
  data class_arr.

(** The main function calls. *)
Definition classify (B : bands) (edges_check : bool) : ndarray Z :=
  let unambiguous_pix := unambiguous_fire B in
  let dn_fold_pix := dn_fold B in
  let water_pix := water_pixels B in
  let background_pix := background B unambiguous_pix water_pix in
  let potential_pix := potential_fire B background_pix edges_check in
  let class_pix := make_classified_array dn_fold_pix unambiguous_pix potential_pix in
  class_pix.

(** The script from the shape check on: the check, the [ValueError] on a
    failed check, then the classification (a [size_test] that holds only
    prints a warning). *)
Definition main (B : bands) (edges_check : bool) : result (ndarray Z) :=
  checks <- check_shapes B ;;
  let band_shape_check := fst checks in
  if Bool.eqb band_shape_check false then Raise ValueError
  else Return (classify B edges_check).

End PotentialFire.

(** ** A model of scipy.ndimage.uniform_filter

    The mean over a [size]-wide window centred on each item, one axis after
    the other, the input extended beyond its edges by reflection
    ([mode='reflect']: d c b a | a b c d | d c b a).  Along a line the
    routine adds up the first window and divides, and from there keeps a
    running mean: each output is the one before it plus the difference of
    the item that enters the window and the item that leaves it, divided by
    [size].  So a NaN or an infinity in a line stays in every later output
    of that line. *)

Definition reflect (n k : Z) : Z :=
  let m := k mod (2 * n) in
  if m <? n then m else 2 * n - 1 - m.

(** The line buffer: [size / 2] items before the line and as many as the
    window needs after it, taken from the line by reflection; item [k] of
    the buffer is item [k - size / 2] of the extended line. *)
Definition line_buffer (n : nat) (line : nat -> float) (size : Z) (k : nat) : float :=
  line (Z.to_nat (reflect (Z.of_nat n) (Z.of_nat k - size / 2))).

Fixpoint running_mean (buffer : nat -> float) (size : Z) (i : nat) : float :=
  match i with
  | O =>
      F64.div (fold_left F64.add (map buffer (seq 0 (Z.to_nat size))) F64.zero)
              (F64.of_Z size)
  | S i' =>
      F64.add (running_mean buffer size i')
              (F64.div (F64.sub (buffer (i' + Z.to_nat size)%nat) (buffer i'))
                       (F64.of_Z size))
  end.

Definition uniform_filter1d (n : nat) (line : nat -> float) (size : Z) (i : nat) : float :=
  running_mean (line_buffer n line size) size i.

Definition scipy_uniform_filter (a : ndarray float) (size : Z) : ndarray float :=
  let h := fst (shape a) in
  let w := snd (shape a) in
  let along_rows i j := uniform_filter1d h (fun r => item a r j) size i in
  let along_cols i j := uniform_filter1d w (fun c => along_rows i c) size j in
  mk_ndarray (shape a) along_cols.

(** The mean of a window that holds one value [c] throughout. *)
Definition window_mean (size : Z) (c : float) : float :=
  F64.div (fold_left F64.add (map (fun _ : nat => c) (seq 0 (Z.to_nat size))) F64.zero)
          (F64.of_Z size).

(** Along a line that holds [c] throughout, the running mean stays where
    it starts: adding [(c - c) / size] leaves the mean of the first window
    as it is. *)
Definition steady (size : Z) (c : float) : Prop :=
  F64.add (window_mean size c) (F64.div (F64.sub c c) (F64.of_Z size))
  = window_mean size c.

(** ** Concrete images *)

Definition full (s : nat * nat) (v : float) : ndarray float :=
  mk_ndarray s (fun _ _ => v).

(** One pixel value per band, the same over the whole grid. *)
Definition uniform_bands (s : nat * nat) (b1 b2 b3 b4 b5 b6 b7 : float) : bands :=
  mk_bands (full s b1) (full s b2) (full s b3) (full s b4)
           (full s b5) (full s b6) (full s b7).

(** The pixel of the spec's examples: every band holds one value. *)
Definition px : nat * nat := (1%nat, 1%nat).

(** The water test of one pixel, in the spec's words: the base test and the
    water-type test. *)
Definition water_base_test (B : bands) (i j : nat) : Prop :=
  F64.gtb (item (band4 B) i j) (item (band5 B) i j) = true /\
  F64.gtb (item (band5 B) i j) (item (band6 B) i j) = true /\
  F64.gtb (item (band6 B) i j) (item (band7 B) i j) = true /\
  F64.ltb (item (diff17 B) i j) (F64.dec 2 10) = true.

Definition water_type_test (B : bands) (i j : nat) : Prop :=
  F64.gtb (item (band3 B) i j) (item (band2 B) i j) = true \/
  (F64.gtb (item (band1 B) i j) (item (band2 B) i j) = true /\
   F64.gtb (item (band2 B) i j) (item (band3 B) i j) = true /\
   F64.gtb (item (band3 B) i j) (item (band4 B) i j) = true).

(** The spec's water example, and the same pixel with band1 lowered to 0.2. *)
Definition water_example : bands :=
  uniform_bands px (F64.dec 3 10) (F64.dec 25 100) (F64.dec 2 10) (F64.dec 15 100)
    (F64.dec 1 10) (F64.dec 8 100) (F64.dec 5 100).

Definition water_example_lowered : bands :=
  uniform_bands px (F64.dec 2 10) (F64.dec 25 100) (F64.dec 2 10) (F64.dec 15 100)
    (F64.dec 1 10) (F64.dec 8 100) (F64.dec 5 100).

(** A pixel that is water: band3 > band2 on top of the base test. *)
Definition water_scene : bands :=
  uniform_bands px (F64.dec 1 10) (F64.dec 1 10) (F64.dec 2 10) (F64.dec 15 100)
    (F64.dec 1 10) (F64.dec 8 100) (F64.dec 5 100).

(** Step 1 of the potential-fire test at one pixel: the direct thresholds. *)
Definition direct_test (B : bands) (i j : nat) : bool :=
  (F64.gtb (item (ratio75 B) i j) (F64.dec 18 10)
   && F64.gtb (item (diff75 B) i j) (F64.dec 17 100))
  && F64.gtb (item (ratio76 B) i j) (F64.dec 16 10).

(** A scene on which a pixel is DN fold and potential fire at once: band1 =
    0.125, band5 = band6 = 1, band7 = 2 everywhere (every value is a dyadic
    number, so the window sums and means are exact). *)
Definition fold_and_fire_scene (s : nat * nat) : bands :=
  uniform_bands s (F64.dec 125 1000) F64.zero F64.zero F64.zero
    (F64.of_Z 1) (F64.of_Z 1) (F64.of_Z 2).

(** A scene of unambiguous fire: band5 = 0.1, band7 = 0.6 everywhere. *)
Definition fire_scene (s : nat * nat) : bands :=
  uniform_bands s F64.zero F64.zero F64.zero F64.zero
    (F64.dec 1 10) (F64.of_Z 1) (F64.dec 6 10).


(** The scene [fold_and_fire_scene] with band7 replaced by NaN, a fill
    value: band1 = 0.125, band5 = band6 = 1 everywhere. *)
Definition nodata_scene (s : nat * nat) : bands :=
  uniform_bands s (F64.dec 125 1000) F64.zero F64.zero F64.zero
    (F64.of_Z 1) (F64.of_Z 1) S754_nan.

(** The background mask as the main script computes it. *)
Definition background_of (B : bands) : ndarray bool :=
  background B (unambiguous_fire B) (water_pixels B).

(** ** The statistics of the potential-fire test, in the spec's words *)

(** A pixel lies within 30 pixels of an edge of a grid of shape [s]. *)
Definition in_border (s : nat * nat) (i j : nat) : bool :=
  ((i <? 30) || (fst s - 30 <=? i) || (j <? 30) || (snd s - 30 <=? j))%nat.

Definition in_grid (s : nat * nat) (i j : nat) : bool :=
  ((i <? fst s) && (j <? snd s))%nat.


(** Raising to a floor. *)
Definition clamp_floor (floor x : float) : float :=
  if F64.ltb x floor then floor else x.

(** The threshold at one pixel from the three window averages there: of the
    masked value, of its square, and of the indicator. *)
Definition threshold_of (floor mean_sum square_sum weight : float) : float :=
  clamp_floor floor
    (F64.mul
       (F64.sqrt
          (F64.sub (F64.div square_sum weight)
             (F64.mul (F64.div mean_sum weight) (F64.div mean_sum weight))))
       (F64.of_Z 3)).



(** ** Order and sign of binary64 values *)

(** An order embedding of the well-formed values other than NaN into the
    integers: a finite value is scaled by 2^1074, the weight of the
    smallest exponent, and the infinities lie beyond every finite value. *)
Definition ord (x : float) : Z :=
  match x with
  | S754_zero _ => 0
  | S754_nan => 0
  | S754_infinity s => cond_Zopp s (2 ^ 2200)
  | S754_finite s m e => cond_Zopp s (Zpos m * 2 ^ (e + 1074))
  end.

(** A result carries sign [s], or is NaN. *)
Definition signed (s : bool) (r : float) : Prop :=
  match r with
  | S754_nan => True
  | S754_zero s' | S754_infinity s' | S754_finite s' _ _ => s' = s
  end.

(** * The code around the engine *)

(** ** Python strings, lists and dictionaries *)

(** A Python [str], character by character. *)
Definition str : Type := list ascii.

Definition lit (s : string) : str := list_ascii_of_string s.

Fixpoint str_eqb (a b : str) : bool :=
  match a, b with
  | [], [] => true
  | x :: a', y :: b' => Ascii.eqb x y && str_eqb a' b'
  | _, _ => false
  end.

(** [x in l] and the position [l.index(x)] of the first item equal to [x]. *)
Definition list_contains (x : str) (l : list str) : bool := existsb (str_eqb x) l.

Fixpoint list_index (x : str) (l : list str) : option nat :=
  match l with
  | [] => None
  | y :: rest => if str_eqb y x then Some 0%nat else option_map S (list_index x rest)
  end.

(** [s.split(sep)] for a one-character separator: the pieces between the
    occurrences of [sep], one more than there are occurrences. *)
Fixpoint split (sep : ascii) (s : str) : list str :=
  match s with
  | [] => [[]]
  | c :: rest =>
      if Ascii.eqb c sep then [] :: split sep rest
      else match split sep rest with
           | piece :: pieces => (c :: piece) :: pieces
           | [] => [[c]]
           end
  end.

(** [s.strip(chars)]: drop the leading and the trailing characters that
    belong to [chars]. *)
Fixpoint lstrip (chars : list ascii) (s : str) : str :=
  match s with
  | [] => []
  | c :: rest => if existsb (Ascii.eqb c) chars then lstrip chars rest else s
  end.

Definition strip (chars : list ascii) (s : str) : str :=
  rev (lstrip chars (rev (lstrip chars s))).

(** [str(n)] of an integer. *)
Definition str_of_int (n : Z) : str := lit (NilZero.string_of_int (Z.to_int n)).

(** A [dict] with string keys and values: the items in insertion order, at
    most one per key; assigning to a key that is present replaces its
    value in place. *)
Definition pydict : Type := list (str * str).

Fixpoint dict_set (k v : str) (d : pydict) : pydict :=
  match d with
  | [] => [(k, v)]
  | (k', v') :: rest =>
      if str_eqb k' k then (k', v) :: rest else (k', v') :: dict_set k v rest
  end.

Fixpoint dict_get (k : str) (d : pydict) : option str :=
  match d with
  | [] => None
  | (k', v') :: rest => if str_eqb k' k then Some v' else dict_get k rest
  end.

(** [dict(items)] *)
Definition dict_of_items (items : list (str * str)) : pydict :=
  fold_left (fun d kv => dict_set (fst kv) (snd kv) d) items [].

(** The value [dict(items)] holds for a key is that of the last item with
    the key. *)
Fixpoint last_item (k : str) (items : list (str * str)) : option str :=
  match items with
  | [] => None
  | (k', v) :: rest =>
      match last_item k rest with
      | Some v' => Some v'
      | None => if str_eqb k' k then Some v else None
      end
  end.

(** The [key=value] arguments of a command line, in order. *)
Definition key_value_items (args : list str) : list (str * str) :=
  flat_map (fun arg => match split "="%char arg with
                       | [k; v] => [(k, v)]
                       | _ => []
                       end) args.

(** An argument with exactly one [=]. *)
Definition one_equals (arg : str) : Prop := count_occ ascii_dec arg "="%char = 1%nat.

(** ** Keyword arguments *)

(** The loop of [process_args] over [args[1:]]: [k,v = arg.split('=')]
    raises [ValueError] unless the split has exactly two pieces. *)
Fixpoint process_args_loop (args : list str) (ks vs : list str)
  : result (list str * list str) :=
  match args with
  | [] => Return (ks, vs)
  | arg :: rest =>
      match split "="%char arg with
      | [k; v] => process_args_loop rest (ks ++ [k]) (vs ++ [v])
      | _ => Raise ValueError
      end
  end.

Definition process_args (args : list str) : result pydict :=
  kv <- process_args_loop (tl args) [] [] ;;
  let args_dict := dict_of_items (combine (fst kv) (snd kv)) in
  Return args_dict.

(** [distutils.util.strtobool], a library routine: the words for true and
    for false in any letter case, [ValueError] on anything else. *)
Definition lower_char (c : ascii) : ascii :=
  let n := nat_of_ascii c in
  if ((65 <=? n) && (n <=? 90))%nat then ascii_of_nat (n + 32) else c.

Definition lower (s : str) : str := map lower_char s.

Definition strtobool (val : str) : result Z :=
  let val := lower val in
  if list_contains val [lit "y"; lit "yes"; lit "t"; lit "true"; lit "on"; lit "1"]
  then Return 1
  else if list_contains val [lit "n"; lit "no"; lit "f"; lit "false"; lit "off"; lit "0"]
  then Return 0
  else Raise ValueError.

(** [bool(strtobool(args_dict[key]))] if [key in args_dict], the default
    otherwise ([dict_get] is [None] exactly when the key is absent). *)
Definition option_value (args_dict : pydict) (key : str) (default : bool) : result bool :=
  match dict_get key args_dict with
  | Some val => b <- strtobool val ;; Return (negb (b =? 0))
  | None => Return default
  end.

(** The two options the script reads from the keyword arguments:
    [vals_check] and [edges_check]. *)
Definition parse_options (args_dict : pydict) : result (bool * bool) :=
  vals_check <- option_value args_dict (lit "writevals") false ;;
  edges_check <- option_value args_dict (lit "mask_edges") true ;;
  Return (vals_check, edges_check).

(** ** Output and errors of the loading code *)

(** The exceptions of the loading code: those of [exn], and the errors of
    indexing, of dictionary lookup and of opening or reading a raster. *)
Inductive error : Type :=
| Builtin (e : exn)
| IndexError
| KeyError
| RasterioIOError.

(** A run of printing code: the lines printed, then an exception or a
    value. *)
Definition run (A : Type) : Type := list str * (error + A).

Definition ret {A : Type} (a : A) : run A := ([], inr a).
Definition raise {A : Type} (e : error) : run A := ([], inl e).
Definition print (line : str) : run unit := ([line], inr tt).

Definition run_bind {A B : Type} (m : run A) (k : A -> run B) : run B :=
  match m with
  | (printed, inl e) => (printed, inl e)
  | (printed, inr a) => let (printed', r) := k a in (printed ++ printed', r)
  end.

Notation "x <~ m ;; k" := (run_bind m (fun x => k))
  (at level 61, m at next level, right associativity).

Definition lift {A : Type} (r : result A) : run A :=
  match r with
  | Return a => ret a
  | Raise e => raise (Builtin e)
  end.

Definition try {A : Type} (r : error + A) : run A := ([], r).

(** [l.index(x)] and [l[i]] as the code runs them. *)
Definition index_of (x : str) (l : list str) : run nat :=
  match list_index x l with
  | Some i => ret i
  | None => raise (Builtin ValueError)
  end.

Definition getitem {A : Type} (l : list A) (i : nat) : run A :=
  match nth_error l i with
  | Some a => ret a
  | None => raise IndexError
  end.

(** [l[i]] for an integer that may be negative: it then counts from the
    end. *)
Definition getitem_int {A : Type} (l : list A) (i : Z) : run A :=
  let n := Z.of_nat (List.length l) in
  if (0 <=? i) && (i <? n) then getitem l (Z.to_nat i)
  else if (- n <=? i) && (i <? 0) then getitem l (Z.to_nat (i + n))
  else raise IndexError.

(** [d[k]] *)
Definition dict_getitem (k : str) (d : pydict) : run str :=
  match dict_get k d with
  | Some v => ret v
  | None => raise KeyError
  end.

(** ** File loading *)

Definition bands_dict : pydict :=
  [(lit "1", lit "Coastal Aerosol"); (lit "2", lit "Blue"); (lit "3", lit "Green");
   (lit "4", lit "Red"); (lit "5", lit "NIR"); (lit "6", lit "SWIR 1");
   (lit "7", lit "SWIR 2"); (lit "8", lit "Panchromatic"); (lit "9", lit "Cirrus");
   (lit "10", lit "TIRS 1"); (lit "11", lit "TIRS 2")].

Definition is_newline (c : ascii) : bool := Ascii.eqb c "010"%char.

(** [re.search('_B(.+?).', fname)]: the leftmost place where [_B] is
    followed by two characters other than a newline (the lazy group takes
    one, the unescaped dot the other); [group(0)] is those four
    characters. *)
Fixpoint re_search_band (fname : str) : option str :=
  match fname with
  | [] => None
  | c :: rest =>
      match rest with
      | b :: c1 :: c2 :: _ =>
          if Ascii.eqb c "_"%char && Ascii.eqb b "B"%char
             && negb (is_newline c1) && negb (is_newline c2)
          then Some [c; b; c1; c2]
          else re_search_band rest
      | _ => re_search_band rest
      end
  end.

(** [fnumber.group(0).strip('_B').strip('.')] *)
Definition band_number_of (fname : str) : option str :=
  match re_search_band fname with
  | Some group_0 => Some (strip (lit ".") (strip (lit "_B") group_0))
  | None => None
  end.

(** A name that carries a band tag, a name in which [_B] occurs, and a
    decimal digit. *)
Definition tagged (fname : str) : Prop := band_number_of fname <> None.

Fixpoint contains_UB (s : str) : bool :=
  match s with
  | [] => false
  | c :: rest =>
      match rest with
      | b :: _ => (Ascii.eqb c "_"%char && Ascii.eqb b "B"%char) || contains_UB rest
      | [] => false
      end
  end.

Definition is_digit (c : ascii) : bool :=
  ((48 <=? nat_of_ascii c) && (nat_of_ascii c <=? 57))%nat.

(** The band numbers of the names that carry a tag, in order. *)
Definition band_numbers_of (fnames : list str) : list str :=
  flat_map (fun fname => match band_number_of fname with
                         | Some number => [number]
                         | None => []
                         end) fnames.

Section Loading.

(** [Path(fname).name], the last component of a path. *)
Variable path_name : str -> str.

Fixpoint get_bands_loop (fnames : list str) (band_files band_numbers : list str)
  : list str * list str :=
  match fnames with
  | [] => (band_files, band_numbers)
  | fname :: rest =>
      let band_files := band_files ++ [path_name fname] in
      match band_number_of fname with
      | Some number => get_bands_loop rest band_files (band_numbers ++ [number])
      | None => get_bands_loop rest band_files band_numbers
      end
  end.

Definition get_bands (fnames : list str) : list str * list str :=
  get_bands_loop fnames [] [].

End Loading.

Definition get_single_band (fnames band_numbers : list str) (band_num : Z) : run str :=
  i <~ index_of (str_of_int band_num) band_numbers ;;
  getitem fnames i.

(** The loop of [load_fire_bands] over the band numbers still to check. *)
Fixpoint load_fire_bands_loop (todo : list Z) (band_files band_numbers file_locs : list str)
  : run unit :=
  match todo with
  | [] => ret tt
  | i :: rest =>
      if list_contains (str_of_int i) band_numbers then
        name <~ dict_getitem (str_of_int i) bands_dict ;;
        _ <~ print (lit "Band " ++ str_of_int i ++ lit " loaded: " ++ name) ;;
        b_index <~ index_of (str_of_int i) band_numbers ;;
        band_file <~ getitem band_files b_index ;;
        _ <~ print (lit "Band " ++ str_of_int i ++ lit ": " ++ band_file) ;;
        temp_loc <~ get_single_band band_files band_numbers i ;;
        load_fire_bands_loop rest band_files band_numbers (file_locs ++ [temp_loc])
      else raise (Builtin RuntimeError)
  end.

(** A band number that has a name in [bands_dict]. *)
Definition named (i : Z) : Prop := dict_get (str_of_int i) bands_dict <> None.

(** [range(1,8)] *)
Definition range_1_8 : list Z := [1; 2; 3; 4; 5; 6; 7].

Definition load_fire_bands (band_files band_numbers : list str) : run unit :=
  load_fire_bands_loop range_1_8 band_files band_numbers [].

(** ** The script up to the classified raster *)

Section Script.

Variable path_name : str -> str.

(** [rio.open(path)] and [data.read(1)]: either may fail. *)
Variable dataset : Type.
Variable rio_open : str -> error + dataset.
Variable read : dataset -> error + ndarray float.

Variable uniform_filter : ndarray float -> Z -> ndarray float.

(** [args] is [sys.argv] and [fnames] what the file dialog returns.
    [vals_check] is parsed with [edges_check]; it only switches the GeoTIFF
    output of the functions on and has no part in the raster. *)
Definition script (args fnames : list str) : run (ndarray Z) :=
  args_dict <~ lift (process_args args) ;;
  options <~ lift (parse_options args_dict) ;;
  let edges_check := snd options in
  let bfiles := fst (get_bands path_name fnames) in
  let bnumbers := snd (get_bands path_name fnames) in
  _ <~ load_fire_bands bfiles bnumbers ;;
  _ <~ print (lit "All required bands loaded.") ;;
  f1 <~ get_single_band fnames bnumbers 1 ;; data1 <~ try (rio_open f1) ;;
  f2 <~ get_single_band fnames bnumbers 2 ;; data2 <~ try (rio_open f2) ;;
  f3 <~ get_single_band fnames bnumbers 3 ;; data3 <~ try (rio_open f3) ;;
  f4 <~ get_single_band fnames bnumbers 4 ;; data4 <~ try (rio_open f4) ;;
  f5 <~ get_single_band fnames bnumbers 5 ;; data5 <~ try (rio_open f5) ;;
  f6 <~ get_single_band fnames bnumbers 6 ;; data6 <~ try (rio_open f6) ;;
  f7 <~ get_single_band fnames bnumbers 7 ;; data7 <~ try (rio_open f7) ;;
  band1 <~ try (read data1) ;;
  band2 <~ try (read data2) ;;
  band3 <~ try (read data3) ;;
  band4 <~ try (read data4) ;;
  band5 <~ try (read data5) ;;
  band6 <~ try (read data6) ;;
  band7 <~ try (read data7) ;;
  lift (main uniform_filter
          (mk_bands band1 band2 band3 band4 band5 band6 band7) edges_check).

End Script.

(** ** The base name of the output files *)

(** [os.path.commonprefix(m)], a library routine: the longest string that
    is a prefix of every element, character by character; the empty string
    for an empty list. *)
Fixpoint common_prefix (a b : str) : str :=
  match a, b with
  | x :: a', y :: b' => if Ascii.eqb x y then x :: common_prefix a' b' else []
  | _, _ => []
  end.

Definition commonprefix (m : list str) : str :=
  match m with
  | [] => []
  | s :: rest => fold_left common_prefix rest s
  end.

(** [base_name = os.path.commonprefix(fnames).strip('_B')] *)
Definition base_name (fnames : list str) : str :=
  strip (lit "_B") (commonprefix fnames).

(** A string with nothing to strip at either end. *)
Definition stripped (chars : list ascii) (s : str) : Prop :=
  lstrip chars s = s /\ lstrip chars (rev s) = rev s.

(** ** The labels of the export *)

Definition out_classes : list str :=
  [lit "BACKGROUND"; lit "DN FOLD"; lit "FIRE"; lit "POTENTIAL FIRE"].

(** [out_classes[i]] for the [Value] of a polygon. *)
Definition class_label (i : Z) : run str := getitem_int out_classes i.

(** * Properties *)

(** ** Elementwise reading of the array operations *)

Lemma item_map1 {A B : Type} (f : A -> B) (a : ndarray A) (i j : nat) :
  item (map1 f a) i j = f (item a i j).
Proof. reflexivity. Qed.

Lemma item_map2 {A B C : Type} (f : A -> B -> C) (a : ndarray A) (b : ndarray B)
  (i j : nat) :
  item (map2 f a b) i j = f (item a i j) (item b i j).
Proof. reflexivity. Qed.

(** ** Comparisons *)

Lemma gtb_irrefl (x : float) : F64.gtb x x = false.
Proof.
  unfold F64.gtb, SFltb.
  destruct x as [s | s | | s m e]; simpl; try reflexivity.
  - destruct s; reflexivity.
  - destruct s; rewrite Z.compare_refl; fold (Pos.compare m m);
      rewrite Pos.compare_refl; reflexivity.
Qed.

(** A value at or below zero is not above zero. *)
Lemma leb_zero_not_gtb (x : float) :
  F64.leb x F64.zero = true -> F64.gtb x F64.zero = false.
Proof.
  unfold F64.leb, F64.gtb, SFleb, SFltb, F64.zero.
  destruct x as [s | s | | s m e]; simpl; try reflexivity;
    destruct s; simpl; congruence.
Qed.

(** ** The detectors *)

(** C7: a pixel is unambiguous fire exactly when ratio75 > 2.5, diff75 > 0.3
    and band7 > 0.5; each comparison is strict (a value equal to its
    threshold fails); the pixel band5 = 0.1, band7 = 0.6 is TRUE and the
    same pixel with band7 = 0.5 is FALSE. *)
Theorem unambiguous_fire_spec :
  (forall (B : bands) (i j : nat),
      item (unambiguous_fire B) i j = true <->
      F64.gtb (item (ratio75 B) i j) (F64.dec 25 10) = true /\
      F64.gtb (item (diff75 B) i j) (F64.dec 3 10) = true /\
      F64.gtb (item (band7 B) i j) (F64.dec 5 10) = true) /\
  (forall c : float, F64.gtb c c = false) /\
  (forall (b1 b2 b3 b4 b6 : float) (i j : nat),
      item (unambiguous_fire
              (uniform_bands px b1 b2 b3 b4 (F64.dec 1 10) b6 (F64.dec 6 10))) i j = true) /\
  (forall (b1 b2 b3 b4 b6 : float) (i j : nat),
      item (unambiguous_fire
              (uniform_bands px b1 b2 b3 b4 (F64.dec 1 10) b6 (F64.dec 5 10))) i j = false).
Proof.
  split; [| split; [| split]].
  - intros B i j. unfold unambiguous_fire, np_logical_and, gt_scalar.
    rewrite !item_map2, !item_map1, !andb_true_iff. tauto.
  - exact gtb_irrefl.
  - intros. vm_compute. reflexivity.
  - intros. vm_compute. reflexivity.
Qed.

(** C9: a pixel is DN fold exactly when (band6 > 0.8 and band1 < 0.2) and
    (band5 > 0.4 or band7 < 0.1); the pixel band1 = 0.1, band5 = 0.5,
    band6 = 0.9, band7 = 0.05 is TRUE. *)
Theorem dn_fold_spec :
  (forall (B : bands) (i j : nat),
      item (dn_fold B) i j = true <->
      (F64.gtb (item (band6 B) i j) (F64.dec 8 10) = true /\
       F64.ltb (item (band1 B) i j) (F64.dec 2 10) = true) /\
      (F64.gtb (item (band5 B) i j) (F64.dec 4 10) = true \/
       F64.ltb (item (band7 B) i j) (F64.dec 1 10) = true)) /\
  (forall (b2 b3 b4 : float) (i j : nat),
      item (dn_fold
              (uniform_bands px (F64.dec 1 10) b2 b3 b4
                 (F64.dec 5 10) (F64.dec 9 10) (F64.dec 5 100))) i j = true).
Proof.
  split.
  - intros B i j. unfold dn_fold, np_logical_and, np_logical_or, gt_scalar, lt_scalar.
    rewrite !item_map2, !item_map1, !andb_true_iff, orb_true_iff. tauto.
  - intros. vm_compute. reflexivity.
Qed.

Lemma water_pixels_iff (B : bands) (i j : nat) :
  item (water_pixels B) i j = true <-> water_base_test B i j /\ water_type_test B i j.
Proof.
  unfold water_pixels, water_base_test, water_type_test,
    np_logical_and, np_logical_or, gt_array, lt_scalar.
  rewrite !item_map2, !item_map1, !andb_true_iff, orb_true_iff, !andb_true_iff. tauto.
Qed.

(** C8, as stated, fails on its second example: with band1 lowered to 0.2
    the pixel is still not water, since band1 = 0.2 is below band2 = 0.25
    and band3 = 0.2 is below band2 as well. *)
Lemma water_example_lowered_not_water :
  item (water_pixels water_example_lowered) 0 0 = false.
Proof. vm_compute. reflexivity. Qed.

(** C8, amended: a pixel is water exactly when the base test and the
    water-type test both hold; the spec's example with diff17 = 0.25 is
    FALSE, and lowering band1 to 0.2 makes the base test pass but leaves the
    water-type test, and so the pixel, FALSE. *)
Theorem water_pixels_spec :
  (forall (B : bands) (i j : nat),
      item (water_pixels B) i j = true <-> water_base_test B i j /\ water_type_test B i j) /\
  (forall i j : nat, item (water_pixels water_example) i j = false) /\
  (forall i j : nat,
      water_base_test water_example_lowered i j /\
      ~ water_type_test water_example_lowered i j /\
      item (water_pixels water_example_lowered) i j = false).
Proof.
  split; [exact water_pixels_iff | split].
  - intros. vm_compute. reflexivity.
  - intros i j. split; [| split].
    + unfold water_base_test. vm_compute. repeat split; reflexivity.
    + unfold water_type_test. vm_compute. intros [H | [H _]]; discriminate H.
    + vm_compute. reflexivity.
Qed.

Lemma background_item (B : bands) (unambiguous_array water_array : ndarray bool)
  (i j : nat) :
  item (background B unambiguous_array water_array) i j =
  negb (item unambiguous_array i j || item water_array i j)
  && F64.gtb (item (band7 B) i j) F64.zero.
Proof. reflexivity. Qed.

(** C6: the background mask is NOT(unambiguous OR water) AND band7 > 0 at
    every pixel; so it is FALSE wherever the unambiguous-fire or the water
    mask is TRUE, and FALSE wherever band7 <= 0. *)
Theorem background_spec :
  forall (B : bands) (unambiguous_array water_array : ndarray bool) (i j : nat),
    item (background B unambiguous_array water_array) i j =
      negb (item unambiguous_array i j || item water_array i j)
      && F64.gtb (item (band7 B) i j) F64.zero
    /\ (item unambiguous_array i j = true \/ item water_array i j = true ->
        item (background B unambiguous_array water_array) i j = false)
    /\ (F64.leb (item (band7 B) i j) F64.zero = true ->
        item (background B unambiguous_array water_array) i j = false).
Proof.
  intros B u w i j.
  pose proof (background_item B u w i j) as E.
  split; [exact E | split].
  - intros [H | H]; rewrite E, H; [reflexivity | rewrite orb_true_r; reflexivity].
  - intros H. rewrite E, (leb_zero_not_gtb _ H). apply andb_false_r.
Qed.

(** ** The shape check *)

(** Called, as [shapes_list.count(shapes_list[0])], the method counts 7 on
    seven equal shapes. *)
Lemma tuple_count_call_same_shape (s : nat * nat) :
  call (tuple_count [s; s; s; s; s; s; s]) s = Return 7.
Proof.
  unfold call, shape_eqb. cbn [filter]. rewrite !Nat.eqb_refl. reflexivity.
Qed.

(** X3: whatever the bands are, [check_shapes] raises [TypeError]. *)
Theorem check_shapes_raises (B : bands) : check_shapes B = Raise TypeError.
Proof. reflexivity. Qed.

(** C3 fails on the code: on seven bands of one shape, 100 by 100,
    [check_shapes] does not return [shape_test = True] but raises
    [TypeError], and the script stops there instead of classifying; on
    bands of different shapes the error raised is the same [TypeError], not
    the shape-mismatch [ValueError]. *)
Theorem check_shapes_same_shape_raises :
  let same := uniform_bands (100%nat, 100%nat)
                F64.one F64.one F64.one F64.one F64.one F64.one F64.one in
  let odd := mk_bands (full (100%nat, 100%nat) F64.one) (full (100%nat, 100%nat) F64.one)
               (full (100%nat, 99%nat) F64.one) (full (100%nat, 100%nat) F64.one)
               (full (100%nat, 100%nat) F64.one) (full (100%nat, 100%nat) F64.one)
               (full (100%nat, 100%nat) F64.one) in
  check_shapes same = Raise TypeError /\
  (forall (uniform_filter : ndarray float -> Z -> ndarray float) (edges_check : bool),
      main uniform_filter same edges_check = Raise TypeError) /\
  (forall (uniform_filter : ndarray float -> Z -> ndarray float) (edges_check : bool),
      main uniform_filter odd edges_check = Raise TypeError).
Proof. repeat split. Qed.

(** ** Order and sign of binary64 values *)

Lemma digits2_pos_bounds (m : positive) :
  2 ^ (Zpos (digits2_pos m) - 1) <= Zpos m < 2 ^ Zpos (digits2_pos m).
Proof.
  induction m as [m IH | m IH |]; cbn [digits2_pos].
  - rewrite Pos2Z.inj_succ.
    replace (Z.succ (Zpos (digits2_pos m)) - 1) with (Z.succ (Zpos (digits2_pos m) - 1)) by lia.
    rewrite !Z.pow_succ_r by lia. lia.
  - rewrite Pos2Z.inj_succ.
    replace (Z.succ (Zpos (digits2_pos m)) - 1) with (Z.succ (Zpos (digits2_pos m) - 1)) by lia.
    rewrite !Z.pow_succ_r by lia. lia.
  - simpl. lia.
Qed.

Lemma valid_finite (s : bool) (m : positive) (e : Z) :
  F64.valid (S754_finite s m e) = true ->
  -1074 <= e <= 971 /\ Zpos (digits2_pos m) <= 53 /\ (-1074 < e -> Zpos (digits2_pos m) = 53).
Proof.
  unfold F64.valid, valid_binary, bounded, canonical_mantissa, fexp, emin, F64.prec, F64.emax.
  rewrite andb_true_iff, Z.eqb_eq, Z.leb_le. lia.
Qed.

Lemma finite_magnitude (s : bool) (m : positive) (e : Z) :
  F64.valid (S754_finite s m e) = true ->
  0 < Zpos m * 2 ^ (e + 1074) < 2 ^ 2200.
Proof.
  intros V. destruct (valid_finite _ _ _ V) as (He & Hd & _).
  pose proof (digits2_pos_bounds m) as [_ Hm].
  assert (Zpos m < 2 ^ 53).
  { eapply Z.lt_le_trans; [exact Hm |]. apply Z.pow_le_mono_r; lia. }
  assert (0 < 2 ^ (e + 1074)) by (apply Z.pow_pos_nonneg; lia).
  split; [lia |].
  assert (2 ^ (e + 1074) <= 2 ^ 2045) by (apply Z.pow_le_mono_r; lia).
  replace (2 ^ 2200) with (2 ^ 53 * 2 ^ 2147) by (rewrite <- Z.pow_add_r by lia; reflexivity).
  assert (2 ^ 2045 <= 2 ^ 2147) by (apply Z.pow_le_mono_r; lia).
  nia.
Qed.

Lemma finite_lt_same_sign (m1 m2 : positive) (e1 e2 : Z) (s1 s2 : bool) :
  F64.valid (S754_finite s1 m1 e1) = true ->
  F64.valid (S754_finite s2 m2 e2) = true ->
  match e1 ?= e2 with
  | Lt => True
  | Eq => (m1 < m2)%positive
  | Gt => False
  end ->
  Zpos m1 * 2 ^ (e1 + 1074) < Zpos m2 * 2 ^ (e2 + 1074).
Proof.
  intros V1 V2 H.
  destruct (valid_finite _ _ _ V1) as (He1 & Hd1 & _).
  destruct (valid_finite _ _ _ V2) as (He2 & Hd2 & Hn2).
  destruct (Z.compare_spec e1 e2) as [E | L | G]; [| | contradiction].
  - subst e2. assert (0 < 2 ^ (e1 + 1074)) by (apply Z.pow_pos_nonneg; lia). nia.
  - pose proof (digits2_pos_bounds m1) as [_ Hm1].
    pose proof (digits2_pos_bounds m2) as [Hm2 _].
    rewrite Hn2 in Hm2 by lia.
    assert (Zpos m1 < 2 ^ 53).
    { eapply Z.lt_le_trans; [exact Hm1 |]. apply Z.pow_le_mono_r; lia. }
    assert (P1 : 0 < 2 ^ (e1 + 1074)) by (apply Z.pow_pos_nonneg; lia).
    assert (2 ^ (e2 + 1074) = 2 ^ (e2 - e1 - 1) * 2 * 2 ^ (e1 + 1074)).
    { replace (e2 + 1074) with ((e2 - e1 - 1) + 1 + (e1 + 1074)) by lia.
      rewrite !Z.pow_add_r by lia. rewrite Z.pow_1_r. reflexivity. }
    assert (0 < 2 ^ (e2 - e1 - 1)) by (apply Z.pow_pos_nonneg; lia).
    change (2 ^ (53 - 1)) with 4503599627370496 in Hm2.
    change (2 ^ 53) with 9007199254740992 in *.
    nia.
Qed.

Lemma ltb_ord (x y : float) :
  F64.valid x = true -> F64.valid y = true -> SFltb x y = true -> ord x < ord y.
Proof.
  intros Vx Vy H1. unfold SFltb, SFcompare in H1. unfold ord, cond_Zopp.
  destruct x as [sx | sx | | sx mx ex], y as [sy | sy | | sy my ey];
    try discriminate H1;
    try (pose proof (finite_magnitude _ _ _ Vx));
    try (pose proof (finite_magnitude _ _ _ Vy));
    try (destruct sx); try (destruct sy); try discriminate H1; try lia.
  - assert (Zpos my * 2 ^ (ey + 1074) < Zpos mx * 2 ^ (ex + 1074)); [| lia].
    apply (finite_lt_same_sign _ _ _ _ true true Vy Vx).
    rewrite Z.compare_antisym.
    destruct (ex ?= ey); cbn [CompOpp]; try discriminate H1; auto.
    change (Pos.compare_cont Eq mx my) with (Pos.compare mx my) in H1.
    unfold Pos.lt. rewrite Pos.compare_antisym.
    destruct (Pos.compare mx my); try discriminate H1; reflexivity.
  - apply (finite_lt_same_sign _ _ _ _ false false Vx Vy).
    destruct (ex ?= ey); try discriminate H1; auto.
    change (Pos.compare_cont Eq mx my) with (Pos.compare mx my) in H1.
    unfold Pos.lt.
    destruct (Pos.compare mx my); try discriminate H1; reflexivity.
Qed.

Lemma binary_round_aux_signed (s : bool) (m e : Z) (l : location) :
  signed s (binary_round_aux F64.prec F64.emax s m e l).
Proof.
  unfold binary_round_aux.
  destruct (shr_fexp F64.prec F64.emax m e l) as [mrs' e'].
  destruct (shr_fexp F64.prec F64.emax _ e' loc_Exact) as [mrs'' e''].
  destruct (shr_m mrs'') as [| q | q]; cbn [signed]; auto.
  destruct (e'' <=? F64.emax - F64.prec); cbn [signed]; reflexivity.
Qed.

Lemma binary_normalize_neg (p : positive) (e : Z) (sz : bool) :
  signed true (binary_normalize F64.prec F64.emax (Zneg p) e sz).
Proof.
  unfold binary_normalize, binary_round.
  destruct (shl_align p e _) as [mz ez]. apply binary_round_aux_signed.
Qed.

Lemma iter_xO_value (m d : positive) :
  Zpos (Pos.iter xO m d) = Zpos m * 2 ^ Zpos d.
Proof.
  induction d as [| d IH] using Pos.peano_ind.
  - cbn [Pos.iter]. rewrite Pos2Z.inj_xO, Z.pow_1_r. lia.
  - rewrite Pos.iter_succ, Pos2Z.inj_xO, IH, Pos2Z.inj_succ, Z.pow_succ_r by lia. lia.
Qed.

Lemma shl_align_value (m : positive) (e ez : Z) :
  ez <= e -> -1074 <= ez ->
  Zpos (fst (shl_align m e ez)) * 2 ^ (ez + 1074) = Zpos m * 2 ^ (e + 1074).
Proof.
  intros Hle N.
  unfold shl_align. destruct (ez - e) as [| d | d] eqn:E; cbn [fst].
  - f_equal. f_equal. lia.
  - lia.
  - rewrite iter_xO_value, <- Z.mul_assoc, <- Z.pow_add_r by lia.
    f_equal. f_equal. lia.
Qed.

(** Results that are not above any positive threshold. *)
Lemma signed_not_above (c r : float) :
  match c with S754_finite false _ _ => True | _ => False end ->
  signed true r \/ (exists s, r = S754_zero s) ->
  SFltb c r = false.
Proof.
  destruct c as [| | | [] mc ec]; try contradiction. intros _ [H | [s ->]].
  - destruct r as [s | s | | s m e]; simpl in H; subst; reflexivity.
  - reflexivity.
Qed.

Lemma sub_of_smaller (x y : float) :
  F64.valid x = true -> F64.valid y = true -> ord x < ord y ->
  signed true (SFsub F64.prec F64.emax x y) \/ (exists s, SFsub F64.prec F64.emax x y = S754_zero s).
Proof.
  intros Vx Vy H. unfold ord, cond_Zopp in H.
  destruct x as [sx | sx | | sx mx ex], y as [sy | sy | | sy my ey];
    try (pose proof (finite_magnitude _ _ _ Vx));
    try (pose proof (finite_magnitude _ _ _ Vy));
    cbn [SFsub signed]; auto; try lia;
    try (destruct sx); try (destruct sy); cbn [signed negb]; auto; try lia.
  all: left.
  all: destruct (valid_finite _ _ _ Vx) as (Hex & _);
       destruct (valid_finite _ _ _ Vy) as (Hey & _).
  all: pose proof (shl_align_value mx ex (Z.min ex ey) ltac:(lia) ltac:(lia)) as Ax;
       pose proof (shl_align_value my ey (Z.min ex ey) ltac:(lia) ltac:(lia)) as Ay.
  all: assert (P : 0 < 2 ^ (Z.min ex ey + 1074)) by (apply Z.pow_pos_nonneg; lia).
  all: unfold cond_Zopp.
  all: match goal with
       | |- signed true (binary_normalize _ _ ?z _ _) =>
           assert (N : z < 0) by nia; destruct z; try lia; apply binary_normalize_neg
       end.
Qed.

(** Subtracting a larger value from a smaller one never gives a result above
    a positive threshold. *)
Lemma sub_of_smaller_not_above (c x y : float) :
  match c with S754_finite false _ _ => True | _ => False end ->
  F64.valid x = true -> F64.valid y = true -> ord x < ord y ->
  F64.gtb (F64.sub x y) c = false.
Proof.
  intros Hc Vx Vy H. apply signed_not_above; [exact Hc |].
  apply sub_of_smaller; assumption.
Qed.

(** C10: on well-formed band values no pixel is both unambiguous fire and
    water: where the water base test band5 > band6 > band7 holds, diff75 =
    band7 - band5 is not above 0.3, so the unambiguous-fire test fails. *)
Theorem unambiguous_fire_water_disjoint :
  forall (B : bands) (i j : nat),
    F64.valid (item (band5 B) i j) = true ->
    F64.valid (item (band6 B) i j) = true ->
    F64.valid (item (band7 B) i j) = true ->
    (item (water_pixels B) i j = true ->
     F64.gtb (item (diff75 B) i j) (F64.dec 3 10) = false) /\
    item (unambiguous_fire B) i j && item (water_pixels B) i j = false.
Proof.
  intros B i j V5 V6 V7.
  assert (W : item (water_pixels B) i j = true ->
              F64.gtb (item (diff75 B) i j) (F64.dec 3 10) = false).
  { intros Hw. apply water_pixels_iff in Hw. destruct Hw as [(_ & H56 & H67 & _) _].
    unfold diff75. rewrite item_map2.
    apply sub_of_smaller_not_above; try assumption.
    - vm_compute. exact I.
    - apply (ltb_ord _ _ V7 V6) in H67. apply (ltb_ord _ _ V6 V5) in H56. lia. }
  split; [exact W |].
  destruct (item (water_pixels B) i j) eqn:Hw; [| apply andb_false_r].
  rewrite andb_true_r.
  unfold unambiguous_fire, np_logical_and, gt_scalar.
  rewrite !item_map2, !item_map1.
  fold (diff75 B). rewrite <- (item_map1 (fun x => F64.gtb x (F64.dec 3 10)) (diff75 B)).
  rewrite item_map1, (W eq_refl). apply andb_false_r.
Qed.

Lemma unambiguous_fire_water_disjoint_witness :
  item (water_pixels water_scene) 0 0 = true /\
  ((item (water_pixels water_scene) 0 0 = true ->
    F64.gtb (item (diff75 water_scene) 0 0) (F64.dec 3 10) = false) /\
   item (unambiguous_fire water_scene) 0 0 && item (water_pixels water_scene) 0 0 = false).
Proof.
  split; [vm_compute; reflexivity |].
  apply (unambiguous_fire_water_disjoint water_scene 0 0); vm_compute; reflexivity.
Defined.

(** ** Rounding returns well-formed data *)














(** ** Multiplying by the background indicator *)




(** ** The potential-fire test *)

Lemma in_slice_all (n i : nat) : in_slice slice_all n i = (i <? n)%nat.
Proof.
  unfold in_slice, slice_all; cbn [start stop].
  apply eq_true_iff_eq. rewrite andb_true_iff, Z.leb_le, Z.ltb_lt, Nat.ltb_lt. lia.
Qed.

Lemma in_slice_upto_30 (n i : nat) :
  in_slice (slice_upto 30) n i = ((i <? 30) && (i <? n))%nat.
Proof.
  unfold in_slice, slice_upto, slice_bound; cbn [start stop].
  change (30 <? 0) with false. cbv iota.
  apply eq_true_iff_eq. rewrite !andb_true_iff, Z.leb_le, Z.ltb_lt, !Nat.ltb_lt. lia.
Qed.

Lemma in_slice_from_30 (n i : nat) :
  in_slice (slice_from (-30)) n i = ((n - 30 <=? i) && (i <? n))%nat.
Proof.
  unfold in_slice, slice_from, slice_bound; cbn [start stop].
  change (-30 <? 0) with true. cbv iota.
  apply eq_true_iff_eq.
  rewrite !andb_true_iff, Z.leb_le, Z.ltb_lt, Nat.ltb_lt, Nat.leb_le. lia.
Qed.

Section PotentialFireProperties.

Variable uniform_filter : ndarray float -> Z -> ndarray float.
Variable B : bands.
Variable bg_array : ndarray bool.

(** Before the edges are masked, an item is masked exactly off the
    background, and its datum is the conjunction of the direct test and the
    adaptive test. *)
Lemma potential_array_0_getitem (i j : nat) :
  ma_getitem (potential_array_0 uniform_filter B bg_array) i j =
  if item bg_array i j
  then Some (direct_test B i j
             && item (data (potential_test_4 uniform_filter B bg_array)) i j)
  else None.
Proof.
  unfold ma_getitem.
  change (item (mask (potential_array_0 uniform_filter B bg_array)) i j)
    with ((negb (item bg_array i j) || negb (item bg_array i j)
           || negb (item bg_array i j))
          || (negb (item bg_array i j) || negb (item bg_array i j))).
  change (item (data (potential_array_0 uniform_filter B bg_array)) i j)
    with (direct_test B i j
          && item (data (potential_test_4 uniform_filter B bg_array)) i j).
  destruct (item bg_array i j); reflexivity.
Qed.

Lemma potential_test_3_getitem (i j : nat) :
  ma_getitem (potential_test_3 B bg_array) i j =
  if item bg_array i j then Some (direct_test B i j) else None.
Proof.
  unfold ma_getitem.
  change (item (mask (potential_test_3 B bg_array)) i j)
    with (negb (item bg_array i j) || negb (item bg_array i j)
          || negb (item bg_array i j)).
  change (item (data (potential_test_3 B bg_array)) i j) with (direct_test B i j).
  destruct (item bg_array i j); reflexivity.
Qed.

(** The mask does not touch the data: under it, the data of the result are
    the two tests evaluated on the raw grids. *)
Lemma potential_array_0_data (i j : nat) :
  item (data (potential_array_0 uniform_filter B bg_array)) i j =
  direct_test B i j && item (data (potential_test_4 uniform_filter B bg_array)) i j.
Proof. reflexivity. Qed.

(** With the edges masked, an item of the border is unmasked and FALSE and
    every other item is left as it was. *)
Lemma potential_fire_masked_edges_getitem (i j : nat) :
  ma_getitem (potential_fire uniform_filter B bg_array true) i j =
  if in_grid (shape (band7 B)) i j && in_border (shape (band7 B)) i j
  then Some false
  else ma_getitem (potential_array_0 uniform_filter B bg_array) i j.
Proof.
  unfold potential_fire, ma_getitem, ma_setitem. cbn [data mask item shape].
  change (shape (data (potential_array_0 uniform_filter B bg_array)))
    with (shape (band7 B)).
  rewrite !in_slice_all, !in_slice_upto_30, !in_slice_from_30.
  unfold in_grid, in_border.
  destruct (i <? 30)%nat, (fst (shape (band7 B)) - 30 <=? i)%nat,
    (j <? 30)%nat, (snd (shape (band7 B)) - 30 <=? j)%nat,
    (i <? fst (shape (band7 B)))%nat, (j <? snd (shape (band7 B)))%nat;
    reflexivity.
Qed.

End PotentialFireProperties.

(** ** Composition *)

(** The classified value of a pixel: 1 for DN fold, plus 2 for unambiguous
    fire, plus 3 where the potential-fire item is an unmasked TRUE. *)
Lemma make_classified_array_item
  (dn_fold_array unambiguous_array : ndarray bool)
  (potential_array : masked_array bool) (i j : nat) :
  item (make_classified_array dn_fold_array unambiguous_array potential_array) i j =
  (if item dn_fold_array i j then 1 else 0)
  + (if item unambiguous_array i j then 2 else 0)
  + match ma_getitem potential_array i j with Some true => 3 | _ => 0 end.
Proof.
  unfold make_classified_array, ma_getitem. cbn.
  destruct (item (mask potential_array) i j), (item (data potential_array) i j),
    (item dn_fold_array i j), (item unambiguous_array i j); reflexivity.
Qed.

(** X2: a pixel flagged DN fold and unambiguous fire, and not potential
    fire, is classified 1 + 2 = 3, the code of potential fire. *)
Theorem composite_ambiguity :
  forall (dn_fold_array unambiguous_array : ndarray bool)
         (potential_array : masked_array bool) (i j : nat),
    item dn_fold_array i j = true ->
    item unambiguous_array i j = true ->
    ma_getitem potential_array i j <> Some true ->
    item (make_classified_array dn_fold_array unambiguous_array potential_array) i j = 3.
Proof.
  intros dn u P i j Hd Hu Hp. rewrite make_classified_array_item, Hd, Hu.
  destruct (ma_getitem P i j) as [[|] |]; [contradiction Hp | |]; reflexivity.
Qed.

Lemma composite_ambiguity_witness :
  item (make_classified_array (mk_ndarray px (fun _ _ => true))
          (mk_ndarray px (fun _ _ => true))
          (mk_masked (mk_ndarray px (fun _ _ => false))
                     (mk_ndarray px (fun _ _ => false)))) 0 0 = 3.
Proof.
  apply composite_ambiguity; [reflexivity | reflexivity | discriminate].
Defined.

(** C2: at a pixel where the background mask is FALSE, the direct-threshold
    step is masked (the pixel does not pass), the item of the mask returned
    by [potential_fire] is masked or FALSE, never TRUE, whatever the edge
    flag is, and the pixel gets nothing from the potential-fire layer in the
    classified raster. *)
Theorem potential_fire_non_background :
  forall (uniform_filter : ndarray float -> Z -> ndarray float) (B : bands)
         (bg_array : ndarray bool) (mask_edges : bool)
         (dn_fold_array unambiguous_array : ndarray bool) (i j : nat),
    item bg_array i j = false ->
    ma_getitem (potential_test_3 B bg_array) i j = None /\
    (ma_getitem (potential_fire uniform_filter B bg_array mask_edges) i j = None \/
     ma_getitem (potential_fire uniform_filter B bg_array mask_edges) i j = Some false) /\
    ma_getitem (potential_fire uniform_filter B bg_array mask_edges) i j <> Some true /\
    item (make_classified_array dn_fold_array unambiguous_array
            (potential_fire uniform_filter B bg_array mask_edges)) i j =
      (if item dn_fold_array i j then 1 else 0)
      + (if item unambiguous_array i j then 2 else 0).
Proof.
  intros uf B bg me dn u i j Hbg.
  assert (E : ma_getitem (potential_fire uf B bg me) i j = None \/
              ma_getitem (potential_fire uf B bg me) i j = Some false).
  { destruct me.
    - rewrite potential_fire_masked_edges_getitem, potential_array_0_getitem, Hbg.
      destruct (in_grid _ i j && in_border _ i j); auto.
    - left. unfold potential_fire. rewrite potential_array_0_getitem, Hbg. reflexivity. }
  split; [rewrite potential_test_3_getitem, Hbg; reflexivity |].
  split; [exact E |].
  split; [destruct E as [-> | ->]; discriminate |].
  rewrite make_classified_array_item.
  destruct E as [-> | ->]; apply Z.add_0_r.
Qed.

Lemma potential_fire_non_background_witness :
  item (background_of (fire_scene (100, 100)%nat)) 50 50 = false /\
  ma_getitem (potential_fire scipy_uniform_filter (fire_scene (100, 100)%nat)
                (background_of (fire_scene (100, 100)%nat)) true) 50 50 <> Some true.
Proof.
  assert (H : item (background_of (fire_scene (100, 100)%nat)) 50 50 = false)
    by (vm_compute; reflexivity).
  split; [exact H |].
  exact (proj1 (proj2 (proj2
    (potential_fire_non_background scipy_uniform_filter (fire_scene (100, 100)%nat)
       (background_of (fire_scene (100, 100)%nat)) true
       (dn_fold (fire_scene (100, 100)%nat))
       (unambiguous_fire (fire_scene (100, 100)%nat)) 50 50 H)))).
Defined.

(** C5: with the edge flag enabled every pixel within 30 pixels of an edge
    is an unmasked FALSE, whatever the tests give; with the flag disabled
    every pixel, the border included, carries the result of the one test
    the interior pixels carry when the flag is enabled: masked off the
    background, and on it the direct test together with the adaptive
    test. *)
Theorem potential_fire_edge_policy :
  forall (uniform_filter : ndarray float -> Z -> ndarray float) (B : bands)
         (bg_array : ndarray bool) (i j : nat),
    in_grid (shape (band7 B)) i j = true ->
    (in_border (shape (band7 B)) i j = true ->
     ma_getitem (potential_fire uniform_filter B bg_array true) i j = Some false) /\
    (in_border (shape (band7 B)) i j = false ->
     ma_getitem (potential_fire uniform_filter B bg_array true) i j =
     ma_getitem (potential_array_0 uniform_filter B bg_array) i j) /\
    ma_getitem (potential_fire uniform_filter B bg_array false) i j =
    ma_getitem (potential_array_0 uniform_filter B bg_array) i j /\
    ma_getitem (potential_array_0 uniform_filter B bg_array) i j =
    (if item bg_array i j
     then Some (direct_test B i j
                && item (data (potential_test_4 uniform_filter B bg_array)) i j)
     else None).
Proof.
  intros uf B bg i j G.
  rewrite potential_fire_masked_edges_getitem, G. cbn [andb].
  split; [intros ->; reflexivity |].
  split; [intros ->; reflexivity |].
  split; [reflexivity | apply potential_array_0_getitem].
Qed.

Lemma potential_fire_edge_policy_witness :
  ma_getitem (potential_fire scipy_uniform_filter (fold_and_fire_scene (100, 100)%nat)
                (background_of (fold_and_fire_scene (100, 100)%nat)) true) 29 50
  = Some false.
Proof.
  refine (proj1 (potential_fire_edge_policy scipy_uniform_filter
            (fold_and_fire_scene (100, 100)%nat)
            (background_of (fold_and_fire_scene (100, 100)%nat)) 29 50 _) _);
    vm_compute; reflexivity.
Defined.

(** *** The filter on a grid that holds one value *)

Lemma running_mean_const (buffer : nat -> float) (size : Z) (c : float) (i : nat) :
  (forall k : nat, buffer k = c) -> steady size c ->
  running_mean buffer size i = window_mean size c.
Proof.
  intros E S. induction i as [| i IH].
  - unfold window_mean. cbn [running_mean]. do 2 f_equal.
    apply map_ext. intros k. apply E.
  - cbn [running_mean]. rewrite IH, !E. exact S.
Qed.

Lemma uniform_filter1d_const (n : nat) (line : nat -> float) (size : Z) (c : float)
  (i : nat) :
  (forall r : nat, line r = c) -> steady size c ->
  uniform_filter1d n line size i = window_mean size c.
Proof.
  intros E S. unfold uniform_filter1d. apply running_mean_const; [| exact S].
  intros k. apply E.
Qed.

Lemma scipy_uniform_filter_const (a : ndarray float) (size : Z) (c : float) :
  (forall i j : nat, item a i j = c) ->
  steady size c -> steady size (window_mean size c) ->
  forall i j : nat,
    item (scipy_uniform_filter a size) i j = window_mean size (window_mean size c).
Proof.
  intros E S S' i j. unfold scipy_uniform_filter. cbn [item].
  apply uniform_filter1d_const; [| exact S'].
  intros col. apply uniform_filter1d_const; [| exact S].
  intros r. apply E.
Qed.

Lemma threshold_of_eq (floor a a' b b' c c' : float) :
  a = a' -> b = b' -> c = c' ->
  threshold_of floor a b c = threshold_of floor a' b' c'.
Proof. intros -> -> ->. reflexivity. Qed.

(** The thresholds of the code, pixel by pixel. *)
Lemma item_b7_stddev
  (uniform_filter : ndarray float -> Z -> ndarray float) (B : bands)
  (bg_array : ndarray bool) (i j : nat) :
  item (b7_stddev uniform_filter B bg_array) i j =
  threshold_of (F64.dec 8 100)
    (item (uniform_filter (mask_band7 B bg_array) 61) i j)
    (item (uniform_filter
             (map2 F64.mul (mask_band7 B bg_array) (mask_band7 B bg_array)) 61) i j)
    (item (weights uniform_filter bg_array) i j).
Proof. reflexivity. Qed.

Lemma item_ratio75_stddev
  (uniform_filter : ndarray float -> Z -> ndarray float) (B : bands)
  (bg_array : ndarray bool) (i j : nat) :
  item (ratio75_stddev uniform_filter B bg_array) i j =
  threshold_of (F64.dec 8 10)
    (item (uniform_filter (mask_ratio75 B bg_array) 61) i j)
    (item (uniform_filter
             (map2 F64.mul (mask_ratio75 B bg_array) (mask_ratio75 B bg_array)) 61) i j)
    (item (weights uniform_filter bg_array) i j).
Proof. reflexivity. Qed.

(** *** The scene that is DN fold and potential fire *)

Section FoldAndFireScene.

Variable s : nat * nat.

Let B : bands := fold_and_fire_scene s.
Let bg : ndarray bool := background_of B.

Lemma fold_and_fire_weight (i j : nat) :
  item (weights scipy_uniform_filter bg) i j = F64.one.
Proof.
  unfold weights. rewrite item_map1.
  rewrite (scipy_uniform_filter_const (bg_mask bg) 61 F64.one)
    by (intros; vm_compute; reflexivity).
  vm_compute. reflexivity.
Qed.

(** The window statistics of the scene are exact: no spread, so both
    thresholds are their floors. *)
Lemma fold_and_fire_thresholds (i j : nat) :
  item (b7_stddev scipy_uniform_filter B bg) i j = F64.dec 8 100 /\
  item (ratio75_stddev scipy_uniform_filter B bg) i j = F64.dec 8 10.
Proof.
  pose proof (fold_and_fire_weight i j) as W.
  assert (M7 : item (scipy_uniform_filter (mask_band7 B bg) 61) i j = F64.of_Z 2).
  { rewrite (scipy_uniform_filter_const (mask_band7 B bg) 61 (F64.of_Z 2))
      by (intros; vm_compute; reflexivity).
    vm_compute. reflexivity. }
  assert (Q7 : item (scipy_uniform_filter
                       (map2 F64.mul (mask_band7 B bg) (mask_band7 B bg)) 61) i j
               = F64.of_Z 4).
  { rewrite (scipy_uniform_filter_const
               (map2 F64.mul (mask_band7 B bg) (mask_band7 B bg)) 61 (F64.of_Z 4))
      by (intros; vm_compute; reflexivity).
    vm_compute. reflexivity. }
  assert (M75 : item (scipy_uniform_filter (mask_ratio75 B bg) 61) i j = F64.of_Z 2).
  { rewrite (scipy_uniform_filter_const (mask_ratio75 B bg) 61 (F64.of_Z 2))
      by (intros; vm_compute; reflexivity).
    vm_compute. reflexivity. }
  assert (Q75 : item (scipy_uniform_filter
                        (map2 F64.mul (mask_ratio75 B bg) (mask_ratio75 B bg)) 61) i j
                = F64.of_Z 4).
  { rewrite (scipy_uniform_filter_const
               (map2 F64.mul (mask_ratio75 B bg) (mask_ratio75 B bg)) 61 (F64.of_Z 4))
      by (intros; vm_compute; reflexivity).
    vm_compute. reflexivity. }
  split.
  - rewrite item_b7_stddev.
    etransitivity; [exact (threshold_of_eq _ _ _ _ _ _ _ M7 Q7 W) |].
    vm_compute. reflexivity.
  - rewrite item_ratio75_stddev.
    etransitivity; [exact (threshold_of_eq _ _ _ _ _ _ _ M75 Q75 W) |].
    vm_compute. reflexivity.
Qed.

(** Every pixel of the scene is DN fold, none is unambiguous fire, and
    before the edges are masked every pixel is potential fire. *)
Lemma fold_and_fire_dn_fold (i j : nat) : item (dn_fold B) i j = true.
Proof. vm_compute. reflexivity. Qed.

Lemma fold_and_fire_not_unambiguous (i j : nat) : item (unambiguous_fire B) i j = false.
Proof. vm_compute. reflexivity. Qed.

Lemma fold_and_fire_potential (i j : nat) :
  ma_getitem (potential_array_0 scipy_uniform_filter B bg) i j = Some true.
Proof.
  rewrite potential_array_0_getitem.
  replace (item bg i j) with true by (vm_compute; reflexivity).
  replace (direct_test B i j) with true by (vm_compute; reflexivity).
  change (item (data (potential_test_4 scipy_uniform_filter B bg)) i j)
    with (F64.gtb (item (ratio75 B) i j) (item (ratio75_stddev scipy_uniform_filter B bg) i j)
          && F64.gtb (item (band7 B) i j) (item (b7_stddev scipy_uniform_filter B bg) i j)).
  destruct (fold_and_fire_thresholds i j) as [-> ->].
  vm_compute. reflexivity.
Qed.

End FoldAndFireScene.

(** On the scene [fold_and_fire_scene], 100 by 100, the corner pixel passes
    the potential-fire test when the edge flag is disabled and is forced to
    FALSE when it is enabled. *)
Lemma potential_fire_corner_pixel :
  let B := fold_and_fire_scene (100, 100)%nat in
  ma_getitem (potential_fire scipy_uniform_filter B (background_of B) false) 0 0
  = Some true /\
  ma_getitem (potential_fire scipy_uniform_filter B (background_of B) true) 0 0
  = Some false.
Proof.
  cbv zeta. split.
  - apply fold_and_fire_potential.
  - rewrite potential_fire_masked_edges_getitem.
    change (in_grid (shape (band7 (fold_and_fire_scene (100, 100)%nat))) 0 0
            && in_border (shape (band7 (fold_and_fire_scene (100, 100)%nat))) 0 0)
      with true.
    reflexivity.
Qed.

(** An unmasked TRUE of the potential-fire layer lies on the background, so
    it is never an unambiguous-fire pixel. *)
Lemma potential_fire_true_on_background
  (uniform_filter : ndarray float -> Z -> ndarray float) (B : bands)
  (bg_array : ndarray bool) (mask_edges : bool) (i j : nat) :
  ma_getitem (potential_fire uniform_filter B bg_array mask_edges) i j = Some true ->
  item bg_array i j = true.
Proof.
  destruct (item bg_array i j) eqn:Hbg; [reflexivity |].
  destruct mask_edges.
  - rewrite potential_fire_masked_edges_getitem, potential_array_0_getitem, Hbg.
    destruct (in_grid _ i j && in_border _ i j); discriminate.
  - unfold potential_fire. rewrite potential_array_0_getitem, Hbg. discriminate.
Qed.

(** X1: whatever the bands and the edge flag, a classified value lies
    between 0 and 4, and it is 4 exactly on a DN-fold pixel that is also
    potential fire (potential fire lies on the background, so it never adds
    to unambiguous fire). *)
Theorem classify_values
  (uniform_filter : ndarray float -> Z -> ndarray float) (B : bands)
  (edges_check : bool) (i j : nat) :
  0 <= item (classify uniform_filter B edges_check) i j <= 4 /\
  (item (classify uniform_filter B edges_check) i j = 4 <->
   item (dn_fold B) i j = true /\
   ma_getitem (potential_fire uniform_filter B (background_of B) edges_check) i j
   = Some true).
Proof.
  unfold classify. rewrite make_classified_array_item.
  fold (background_of B).
  pose proof (potential_fire_true_on_background uniform_filter B (background_of B)
                edges_check i j) as P.
  destruct (ma_getitem (potential_fire uniform_filter B (background_of B) edges_check) i j)
    as [[|] |].
  - specialize (P eq_refl). unfold background_of in P.
    rewrite background_item in P. apply andb_true_iff in P. destruct P as [P _].
    apply negb_true_iff, orb_false_iff in P. destruct P as [-> _].
    destruct (item (dn_fold B) i j); split; try lia; intuition congruence.
  - destruct (item (dn_fold B) i j), (item (unambiguous_fire B) i j);
      split; try lia; split; try lia; intros [_ H]; discriminate H.
  - destruct (item (dn_fold B) i j), (item (unambiguous_fire B) i j);
      split; try lia; split; try lia; intros [_ H]; discriminate H.
Qed.

(** C1 fails on the code: on a 100 by 100 scene with band1 = 0.125, band5 =
    band6 = 1 and band7 = 2 everywhere, the centre pixel is DN fold and
    potential fire at once and its classified value is 1 + 3 = 4, outside
    {0, 1, 2, 3}, with the edge flag enabled as well as disabled; with the
    flag disabled every pixel of such a scene, of any shape, is classified
    4. *)
Theorem classify_fold_and_fire_is_4 :
  let B := fold_and_fire_scene (100, 100)%nat in
  item (dn_fold B) 50 50 = true /\
  item (unambiguous_fire B) 50 50 = false /\
  ma_getitem (potential_fire scipy_uniform_filter B (background_of B) true) 50 50
  = Some true /\
  item (classify scipy_uniform_filter B true) 50 50 = 4 /\
  item (classify scipy_uniform_filter B false) 50 50 = 4 /\
  (forall (s : nat * nat) (i j : nat),
      item (classify scipy_uniform_filter (fold_and_fire_scene s) false) i j = 4).
Proof.
  cbv zeta.
  pose proof (fold_and_fire_dn_fold (100, 100)%nat 50 50) as D.
  pose proof (fold_and_fire_not_unambiguous (100, 100)%nat 50 50) as U.
  pose proof (fold_and_fire_potential (100, 100)%nat 50 50) as P'.
  assert (P : ma_getitem (potential_fire scipy_uniform_filter
                            (fold_and_fire_scene (100, 100)%nat)
                            (background_of (fold_and_fire_scene (100, 100)%nat)) true)
                50 50 = Some true).
  { rewrite potential_fire_masked_edges_getitem.
    change (in_grid (shape (band7 (fold_and_fire_scene (100, 100)%nat))) 50 50
            && in_border (shape (band7 (fold_and_fire_scene (100, 100)%nat))) 50 50)
      with false.
    exact P'. }
  split; [exact D |].
  split; [exact U |].
  split; [exact P |].
  unfold classify. rewrite !make_classified_array_item.
  fold (background_of (fold_and_fire_scene (100, 100)%nat)).
  rewrite P, D, U. unfold potential_fire. rewrite P'.
  split; [reflexivity | split; [reflexivity |]].
  intros s i j. rewrite make_classified_array_item.
  fold (background_of (fold_and_fire_scene s)).
  rewrite (fold_and_fire_potential s i j), (fold_and_fire_dn_fold s i j),
    (fold_and_fire_not_unambiguous s i j).
  reflexivity.
Qed.

(** ** The window statistics *)

Section Statistics.

Variable uniform_filter : ndarray float -> Z -> ndarray float.
Variable bg_array : ndarray bool.


End Statistics.








(** * Properties of the code around the engine *)
(** ** Strings and dictionaries *)

Lemma str_eqb_spec (a b : str) : Bool.reflect (a = b) (str_eqb a b).
Proof.
  revert b. induction a as [| x a IH]; intros [| y b]; cbn [str_eqb];
    try (constructor; congruence).
  destruct (Ascii.eqb_spec x y) as [-> | N]; cbn [andb].
  - destruct (IH b) as [-> | N]; constructor; congruence.
  - constructor; congruence.
Qed.

Lemma str_eqb_refl (a : str) : str_eqb a a = true.
Proof. destruct (str_eqb_spec a a); congruence. Qed.

Lemma list_contains_In (x : str) (l : list str) : list_contains x l = true <-> In x l.
Proof.
  unfold list_contains. rewrite existsb_exists. split.
  - intros (y & Hy & E). destruct (str_eqb_spec x y); congruence.
  - intros H. exists x. split; [exact H | apply str_eqb_refl].
Qed.

Lemma split_length (sep : ascii) (s : str) :
  List.length (split sep s) = S (count_occ ascii_dec s sep).
Proof.
  induction s as [| c s IH]; [reflexivity |].
  cbn [split count_occ].
  destruct (Ascii.eqb_spec c sep) as [-> | N].
  - destruct (ascii_dec sep sep); [| congruence]. cbn [List.length]. rewrite IH. reflexivity.
  - destruct (ascii_dec c sep); [congruence |].
    destruct (split sep s) as [| piece pieces]; [discriminate IH | exact IH].
Qed.

Lemma dict_get_set (k k' v : str) (d : pydict) :
  dict_get k (dict_set k' v d) = if str_eqb k' k then Some v else dict_get k d.
Proof.
  induction d as [| [k0 v0] d IH]; cbn [dict_set dict_get].
  - destruct (str_eqb k' k); reflexivity.
  - destruct (str_eqb_spec k0 k') as [-> | N]; cbn [dict_get].
    + destruct (str_eqb k' k); reflexivity.
    + rewrite IH. destruct (str_eqb_spec k0 k) as [-> | N'].
      * destruct (str_eqb_spec k' k); [congruence | reflexivity].
      * reflexivity.
Qed.

Lemma dict_get_fold (k : str) (items : list (str * str)) (d : pydict) :
  dict_get k (fold_left (fun d kv => dict_set (fst kv) (snd kv) d) items d) =
  match last_item k items with
  | Some v => Some v
  | None => dict_get k d
  end.
Proof.
  revert d. induction items as [| [k' v] items IH]; intros d; [reflexivity |].
  cbn [fold_left last_item fst snd]. rewrite IH, dict_get_set.
  destruct (last_item k items); [reflexivity |].
  destruct (str_eqb k' k); reflexivity.
Qed.

(** ** Keyword arguments *)

Lemma split_two_pieces (arg : str) :
  one_equals arg <-> exists k v, split "="%char arg = [k; v].
Proof.
  unfold one_equals. pose proof (split_length "="%char arg) as L. split.
  - intros C. rewrite C in L.
    destruct (split "="%char arg) as [| k [| v [| x r]]]; try discriminate L.
    exists k, v. reflexivity.
  - intros (k & v & E). rewrite E in L. cbn in L. lia.
Qed.

Lemma combine_snoc (ks vs : list str) (k v : str) :
  List.length ks = List.length vs ->
  combine (ks ++ [k]) (vs ++ [v]) = combine ks vs ++ [(k, v)].
Proof.
  revert vs. induction ks as [| x ks IH]; intros [| y vs] L; try discriminate L.
  - reflexivity.
  - cbn [app combine]. rewrite IH; [reflexivity | cbn in L; lia].
Qed.

Lemma process_args_loop_ok (args ks vs : list str) :
  Forall one_equals args ->
  List.length ks = List.length vs ->
  exists ks' vs',
    process_args_loop args ks vs = Return (ks', vs') /\
    combine ks' vs' = combine ks vs ++ key_value_items args.
Proof.
  revert ks vs. induction args as [| arg args IH]; intros ks vs F L.
  - exists ks, vs. split; [reflexivity |]. cbn. rewrite app_nil_r. reflexivity.
  - inversion F as [| a l Ha Hl]; subst.
    apply split_two_pieces in Ha. destruct Ha as (k & v & E).
    cbn [process_args_loop key_value_items flat_map]. rewrite E.
    destruct (IH (ks ++ [k]) (vs ++ [v]) Hl) as (ks' & vs' & R & C).
    { rewrite !length_app. cbn. lia. }
    exists ks', vs'. split; [exact R |].
    rewrite C, (combine_snoc _ _ _ _ L), <- app_assoc. reflexivity.
Qed.

Lemma process_args_loop_bad (args ks vs : list str) :
  ~ Forall one_equals args -> process_args_loop args ks vs = Raise ValueError.
Proof.
  revert ks vs. induction args as [| arg args IH]; intros ks vs N.
  - exfalso. apply N. constructor.
  - cbn [process_args_loop].
    destruct (split "="%char arg) as [| k [| v [| x r]]] eqn:E; try reflexivity.
    apply IH. intros F. apply N. constructor; [| exact F].
    apply split_two_pieces. exists k, v. exact E.
Qed.

Lemma one_equals_dec (args : list str) : {Forall one_equals args} + {~ Forall one_equals args}.
Proof. apply Forall_dec. intros a. unfold one_equals. apply Nat.eq_dec. Qed.

Lemma process_args_returns (args : list str) (args_dict : pydict) :
  process_args args = Return args_dict ->
  args_dict = dict_of_items (key_value_items (tl args)).
Proof.
  intros R. unfold process_args in R.
  destruct (one_equals_dec (tl args)) as [F | N].
  - destruct (process_args_loop_ok (tl args) [] [] F eq_refl) as (ks & vs & E & C).
    rewrite E in R. cbn [bind fst snd] in R. injection R as <-.
    rewrite C. reflexivity.
  - rewrite (process_args_loop_bad _ _ _ N) in R. discriminate R.
Qed.

Lemma dict_get_of_items (k : str) (items : list (str * str)) :
  dict_get k (dict_of_items items) = last_item k items.
Proof.
  unfold dict_of_items. rewrite dict_get_fold.
  destruct (last_item k items); reflexivity.
Qed.

(** X4: when [process_args] returns, the dictionary holds for each key the
    value of the last [key=value] argument with that key, and no other
    key; the first element of [args], the program name, plays no part. *)
Theorem process_args_lookup :
  forall (args : list str) (args_dict : pydict) (k : str),
    process_args args = Return args_dict ->
    dict_get k args_dict = last_item k (key_value_items (tl args)).
Proof.
  intros args d k R. rewrite (process_args_returns args d R).
  apply dict_get_of_items.
Qed.

Lemma process_args_lookup_witness :
  dict_get (lit "mask_edges")
    [(lit "mask_edges", lit "yes"); (lit "writevals", lit "1")]
  = last_item (lit "mask_edges")
      (key_value_items
         (tl [lit "LandsatFire_v1_0.py"; lit "mask_edges=no"; lit "writevals=1";
              lit "mask_edges=yes"])).
Proof.
  apply (process_args_lookup
           [lit "LandsatFire_v1_0.py"; lit "mask_edges=no"; lit "writevals=1";
            lit "mask_edges=yes"]).
  reflexivity.
Defined.

(** X5: [process_args] returns a dictionary exactly when every argument
    after the program name holds exactly one [=]; otherwise it raises
    [ValueError] (an argument such as [writevals] or [a=b=c]). *)
Theorem process_args_errors :
  forall args : list str,
    ((exists args_dict, process_args args = Return args_dict) <->
     Forall one_equals (tl args)) /\
    (process_args args = Raise ValueError <-> ~ Forall one_equals (tl args)).
Proof.
  intros args. unfold process_args.
  destruct (one_equals_dec (tl args)) as [F | N].
  - destruct (process_args_loop_ok (tl args) [] [] F eq_refl) as (ks & vs & E & _).
    rewrite E. cbn [bind]. split; split; intros H.
    + exact F.
    + eexists. reflexivity.
    + discriminate H.
    + contradiction.
  - rewrite (process_args_loop_bad _ _ _ N). cbn [bind]. split; split; intros H.
    + destruct H as (d & H). discriminate H.
    + contradiction.
    + exact N.
    + reflexivity.
Qed.

(** ** Options *)

Lemma lower_char_idempotent (c : ascii) : lower_char (lower_char c) = lower_char c.
Proof. destruct c as [[] [] [] [] [] [] [] []]; reflexivity. Qed.

Lemma lower_idempotent (s : str) : lower (lower s) = lower s.
Proof.
  unfold lower. rewrite map_map. apply map_ext. exact lower_char_idempotent.
Qed.

(** X6: the two options of a run. Without a [writevals] and a [mask_edges]
    argument they are [False] and [True]; a [mask_edges] argument is read
    through [strtobool] from the last argument with that key, in any letter
    case, and a value that is no truth word ends the run with
    [ValueError]. *)
Theorem parse_options_of_args :
  forall (args : list str) (args_dict : pydict),
    process_args args = Return args_dict ->
    let items := key_value_items (tl args) in
    last_item (lit "writevals") items = None ->
    (last_item (lit "mask_edges") items = None ->
     parse_options args_dict = Return (false, true)) /\
    (forall val : str,
       last_item (lit "mask_edges") items = Some val ->
       (strtobool val = Return 1 -> parse_options args_dict = Return (false, true)) /\
       (strtobool val = Return 0 -> parse_options args_dict = Return (false, false)) /\
       (strtobool val = Raise ValueError -> parse_options args_dict = Raise ValueError) /\
       strtobool (lower val) = strtobool val).
Proof.
  intros args args_dict P items W.
  rewrite (process_args_returns args args_dict P).
  pose proof (dict_get_of_items (lit "writevals") items) as Lw.
  pose proof (dict_get_of_items (lit "mask_edges") items) as Lm.
  fold items. rewrite W in Lw.
  unfold parse_options, option_value. rewrite Lw, Lm. cbn [bind].
  split.
  - intros M. rewrite M. reflexivity.
  - intros val M. rewrite M. repeat split.
    + intros ->. reflexivity.
    + intros ->. reflexivity.
    + intros ->. reflexivity.
    + unfold strtobool. rewrite lower_idempotent. reflexivity.
Qed.

Lemma parse_options_of_args_witness :
  parse_options [(lit "mask_edges", lit "No")] = Return (false, false).
Proof.
  destruct (parse_options_of_args [lit "LandsatFire_v1_0.py"; lit "mask_edges=No"]
              [(lit "mask_edges", lit "No")] eq_refl eq_refl) as (_ & H).
  destruct (H (lit "No") eq_refl) as (_ & H0 & _).
  apply H0. reflexivity.
Defined.


(** ** File loading *)

Lemma re_search_band_at (pre rest : str) (c1 c2 : ascii) :
  contains_UB pre = false ->
  is_newline c1 = false -> is_newline c2 = false ->
  re_search_band (pre ++ "_"%char :: "B"%char :: c1 :: c2 :: rest)
  = Some ["_"%char; "B"%char; c1; c2].
Proof.
  intros N N1 N2. induction pre as [| c pre IH].
  - cbn [app re_search_band]. rewrite N1, N2. reflexivity.
  - cbn [app]. cbn [contains_UB] in N.
    destruct pre as [| b pre'].
    + (* the last character of the prefix: the next one is the tag's [_] *)
      cbn [app] in *. cbn [re_search_band].
      replace (Ascii.eqb "_"%char "B"%char) with false by reflexivity.
      rewrite andb_false_r. cbn [andb].
      specialize (IH eq_refl). cbn [re_search_band] in IH. exact IH.
    + apply orb_false_iff in N. destruct N as [Ncb Nrest].
      specialize (IH Nrest).
      change ((c :: b :: pre') ++ "_"%char :: "B"%char :: c1 :: c2 :: rest)
        with (c :: (b :: pre') ++ "_"%char :: "B"%char :: c1 :: c2 :: rest).
      remember ((b :: pre') ++ "_"%char :: "B"%char :: c1 :: c2 :: rest) as tail eqn:Et.
      assert (Hd : exists t, tail = b :: t) by (subst tail; eexists; reflexivity).
      destruct Hd as (t & Ht).
      cbn [re_search_band]. rewrite Ht. rewrite <- Ht.
      destruct t as [| x [| y t']]; try exact IH.
      rewrite Ncb. cbn [andb]. exact IH.
Qed.

Lemma digit_not_stripped (d : ascii) :
  is_digit d = true ->
  Ascii.eqb d "_"%char = false /\ Ascii.eqb d "B"%char = false /\
  Ascii.eqb d "."%char = false /\ is_newline d = false.
Proof.
  intros D. unfold is_newline.
  repeat split;
    match goal with
    | |- Ascii.eqb d ?c = false =>
        destruct (Ascii.eqb_spec d c) as [-> | _]; [discriminate D | reflexivity]
    end.
Qed.

(** X7: in a name whose first [_B] is followed by a digit and a dot
    ([..._B5.TIF]) the band number is that digit, and where it is followed
    by two digits ([..._B10.TIF]) it is the two digits. *)
Theorem band_number_of_tag :
  forall (pre rest : str) (d1 d2 : ascii),
    contains_UB pre = false ->
    is_digit d1 = true ->
    (band_number_of (pre ++ lit "_B" ++ d1 :: "."%char :: rest) = Some [d1]) /\
    (is_digit d2 = true ->
     band_number_of (pre ++ lit "_B" ++ d1 :: d2 :: rest) = Some [d1; d2]).
Proof.
  intros pre rest d1 d2 N D1.
  destruct (digit_not_stripped d1 D1) as (A1 & B1 & C1 & N1).
  split.
  - unfold band_number_of. cbn [lit list_ascii_of_string app].
    rewrite (re_search_band_at pre rest d1 "."%char N N1 eq_refl).
    f_equal. unfold strip. cbn [lit list_ascii_of_string].
    repeat (cbn [orb rev app lstrip existsb Ascii.eqb Bool.eqb andb];
            rewrite ?A1, ?B1, ?C1).
    reflexivity.
  - intros D2. destruct (digit_not_stripped d2 D2) as (A2 & B2 & C2 & N2).
    unfold band_number_of. cbn [lit list_ascii_of_string app].
    rewrite (re_search_band_at pre rest d1 d2 N N1 N2).
    f_equal. unfold strip. cbn [lit list_ascii_of_string].
    repeat (cbn [orb rev app lstrip existsb Ascii.eqb Bool.eqb andb];
            rewrite ?A1, ?B1, ?C1, ?A2, ?B2, ?C2).
    reflexivity.
Qed.

Lemma band_number_of_tag_witness :
  band_number_of
    (lit "LC08_L1TP_042034_20170616_20170629_01_T1" ++ lit "_B" ++
     "5"%char :: "."%char :: lit "TIF")
  = Some ["5"%char].
Proof.
  exact (proj1 (band_number_of_tag (lit "LC08_L1TP_042034_20170616_20170629_01_T1")
                  (lit "TIF") "5"%char "0"%char eq_refl eq_refl)).
Defined.

(** ** Runs *)

Lemma run_bind_ret {A B : Type} (a : A) (k : A -> run B) : run_bind (ret a) k = k a.
Proof. unfold run_bind, ret. destruct (k a); reflexivity. Qed.

Lemma run_bind_print {B : Type} (line : str) (k : unit -> run B) :
  run_bind (print line) k = (line :: fst (k tt), snd (k tt)).
Proof. unfold run_bind, print. destruct (k tt); reflexivity. Qed.

Lemma run_bind_fails {A B : Type} (m : run A) (k : A -> run B) :
  (forall a, exists e, snd (k a) = inl e) -> exists e, snd (run_bind m k) = inl e.
Proof.
  intros K. unfold run_bind. destruct m as [printed [e | a]].
  - exists e. reflexivity.
  - destruct (K a) as (e & E). exists e. destruct (k a). exact E.
Qed.

Lemma run_bind_ok {A B : Type} (m : run A) (k : A -> run B) (a : A) :
  snd m = inr a -> run_bind m k = (fst m ++ fst (k a), snd (k a)).
Proof.
  destruct m as [printed r]. cbn [fst snd]. intros ->. unfold run_bind.
  destruct (k a); reflexivity.
Qed.


Lemma get_bands_loop_spec (path_name : str -> str) (fnames band_files band_numbers : list str) :
  get_bands_loop path_name fnames band_files band_numbers
  = (band_files ++ map path_name fnames, band_numbers ++ band_numbers_of fnames).
Proof.
  revert band_files band_numbers.
  induction fnames as [| fname rest IH]; intros band_files band_numbers.
  - cbn. rewrite !app_nil_r. reflexivity.
  - cbn [get_bands_loop map band_numbers_of flat_map].
    destruct (band_number_of fname) as [number |]; rewrite IH.
    + rewrite <- !app_assoc. reflexivity.
    + rewrite <- !app_assoc. reflexivity.
Qed.

Lemma get_bands_spec (path_name : str -> str) (fnames : list str) :
  get_bands path_name fnames = (map path_name fnames, band_numbers_of fnames).
Proof. unfold get_bands. rewrite get_bands_loop_spec. reflexivity. Qed.

Lemma band_numbers_of_length (fnames : list str) :
  (List.length (band_numbers_of fnames) <= List.length fnames)%nat.
Proof.
  induction fnames as [| fname rest IH]; [apply le_n |].
  cbn [band_numbers_of flat_map]. fold (band_numbers_of rest).
  destruct (band_number_of fname); cbn [app List.length]; lia.
Qed.

Lemma band_numbers_of_tagged (fnames : list str) :
  Forall tagged fnames ->
  map Some (band_numbers_of fnames) = map band_number_of fnames.
Proof.
  induction 1 as [| fname rest T _ IH]; [reflexivity |].
  cbn [band_numbers_of flat_map map]. fold (band_numbers_of rest).
  unfold tagged in T. destruct (band_number_of fname) as [number |]; [| congruence].
  cbn [app map]. rewrite IH. reflexivity.
Qed.

Lemma band_numbers_of_full (fnames : list str) :
  List.length (band_numbers_of fnames) = List.length fnames -> Forall tagged fnames.
Proof.
  induction fnames as [| fname rest IH]; intros L; [constructor |].
  cbn [band_numbers_of flat_map] in L. fold (band_numbers_of rest) in L.
  pose proof (band_numbers_of_length rest) as Le.
  unfold tagged. destruct (band_number_of fname) as [number |] eqn:E.
  - cbn [app List.length] in L. constructor.
    + unfold tagged. rewrite E. discriminate.
    + apply IH. lia.
  - cbn [app List.length] in L. lia.
Qed.

(** X8: [get_bands] returns one file name per path, in order, and the band
    numbers of the paths that carry a tag, in order (a path without a tag
    gives a file name and no band number); so there are never more band
    numbers than file names, the two lists have the same length exactly
    when every path carries a tag, and then the number at each position is
    the one of the path at that position. *)
Theorem get_bands_alignment :
  forall (path_name : str -> str) (fnames : list str),
    let band_files := fst (get_bands path_name fnames) in
    let band_numbers := snd (get_bands path_name fnames) in
    band_files = map path_name fnames /\
    band_numbers =
      flat_map (fun fname => match band_number_of fname with
                             | Some number => [number]
                             | None => []
                             end) fnames /\
    (List.length band_numbers <= List.length band_files)%nat /\
    (List.length band_numbers = List.length band_files <-> Forall tagged fnames) /\
    (Forall tagged fnames ->
     forall (i : nat) (fname : str),
       nth_error fnames i = Some fname ->
       option_map Some (nth_error band_numbers i) = Some (band_number_of fname)).
Proof.
  intros path_name fnames. rewrite get_bands_spec. cbn [fst snd].
  split; [reflexivity |]. split; [reflexivity |]. rewrite length_map.
  split; [apply band_numbers_of_length |].
  split.
  - split; [apply band_numbers_of_full |].
    intros T. rewrite <- (length_map Some), (band_numbers_of_tagged _ T).
    apply length_map.
  - intros T i fname E.
    rewrite <- nth_error_map, (band_numbers_of_tagged _ T), nth_error_map, E.
    reflexivity.
Qed.

(** ** Selecting a band *)

Lemma list_index_In (x : str) (l : list str) :
  In x l -> exists i, list_index x l = Some i.
Proof.
  induction l as [| y rest IH]; intros I; [destruct I |].
  cbn [list_index]. destruct (str_eqb_spec y x) as [-> | N].
  - eexists; reflexivity.
  - destruct I as [-> | I]; [congruence |].
    destruct (IH I) as (i & ->). eexists; reflexivity.
Qed.

Lemma list_index_nth (x : str) (l : list str) (i : nat) :
  list_index x l = Some i ->
  nth_error l i = Some x /\ forall j, (j < i)%nat -> nth_error l j <> Some x.
Proof.
  revert i. induction l as [| y rest IH]; intros i E; [discriminate E |].
  cbn [list_index] in E. destruct (str_eqb_spec y x) as [-> | N].
  - injection E as <-. split; [reflexivity | intros j L; lia].
  - destruct (list_index x rest) as [i' |]; [| discriminate E].
    injection E as <-. destruct (IH i' eq_refl) as (A & B).
    split; [exact A |]. intros [| j] L; cbn [nth_error].
    + congruence.
    + apply B. lia.
Qed.

Lemma list_index_None (x : str) (l : list str) :
  list_index x l = None <-> ~ In x l.
Proof.
  split.
  - intros E I. destruct (list_index_In x l I) as (i & E'). congruence.
  - intros N. destruct (list_index x l) as [i |] eqn:E; [| reflexivity].
    destruct (list_index_nth _ _ _ E) as (A & _).
    destruct N. eapply nth_error_In. exact A.
Qed.

Lemma get_single_band_found (fnames band_numbers : list str) (band_num : Z) (i : nat) :
  list_index (str_of_int band_num) band_numbers = Some i ->
  get_single_band fnames band_numbers band_num = getitem fnames i.
Proof.
  intros E. unfold get_single_band, index_of. rewrite E.
  fold (@ret nat i). apply run_bind_ret.
Qed.

Lemma get_single_band_missing (fnames band_numbers : list str) (band_num : Z) :
  list_index (str_of_int band_num) band_numbers = None ->
  get_single_band fnames band_numbers band_num = raise (Builtin ValueError).
Proof.
  intros E. unfold get_single_band, index_of. rewrite E. reflexivity.
Qed.

(** X9: on the lists [get_bands] makes from paths that all carry a tag,
    [get_single_band] returns the first path whose band number is the one
    asked for, and raises [ValueError] when no path has that number. *)
Theorem get_single_band_of_get_bands :
  forall (path_name : str -> str) (fnames : list str) (band_num : Z),
    Forall tagged fnames ->
    let band_numbers := snd (get_bands path_name fnames) in
    (In (Some (str_of_int band_num)) (map band_number_of fnames) ->
     exists (i : nat) (fname : str),
       get_single_band fnames band_numbers band_num = ret fname /\
       nth_error fnames i = Some fname /\
       band_number_of fname = Some (str_of_int band_num) /\
       forall (j : nat) (other : str),
         (j < i)%nat -> nth_error fnames j = Some other ->
         band_number_of other <> Some (str_of_int band_num)) /\
    (~ In (Some (str_of_int band_num)) (map band_number_of fnames) ->
     get_single_band fnames band_numbers band_num = raise (Builtin ValueError)).
Proof.
  intros path_name fnames band_num T. rewrite get_bands_spec. cbn [snd].
  pose proof (band_numbers_of_tagged fnames T) as M.
  split.
  - intros I. rewrite <- M in I. apply in_map_iff in I.
    destruct I as (x & Ex & I). injection Ex as ->.
    destruct (list_index_In _ _ I) as (i & E).
    destruct (list_index_nth _ _ _ E) as (A & B).
    assert (A' : nth_error (map band_number_of fnames) i = Some (Some (str_of_int band_num))).
    { rewrite <- M, nth_error_map, A. reflexivity. }
    rewrite nth_error_map in A'.
    destruct (nth_error fnames i) as [fname |] eqn:F; [| discriminate A'].
    injection A' as A'.
    exists i, fname. split; [| split; [exact F | split; [exact A' |]]].
    + rewrite (get_single_band_found _ _ _ _ E). unfold getitem. rewrite F. reflexivity.
    + intros j other L O Eo. apply (B j L).
      assert (O' : nth_error (map Some (band_numbers_of fnames)) j = Some (Some (str_of_int band_num))).
      { rewrite M, nth_error_map, O. cbn. rewrite Eo. reflexivity. }
      rewrite nth_error_map in O'.
      destruct (nth_error (band_numbers_of fnames) j); [| discriminate O'].
      injection O' as ->. reflexivity.
  - intros N. apply get_single_band_missing. apply list_index_None.
    intros I. apply N. rewrite <- M. apply in_map. exact I.
Qed.

Lemma get_single_band_of_get_bands_witness :
  get_single_band [lit "scene_B5.TIF"; lit "scene_B7.TIF"]
    (snd (get_bands (fun fname => fname) [lit "scene_B5.TIF"; lit "scene_B7.TIF"])) 6
  = raise (Builtin ValueError).
Proof.
  refine (proj2 (get_single_band_of_get_bands (fun fname => fname)
                   [lit "scene_B5.TIF"; lit "scene_B7.TIF"] 6 _) _).
  - repeat constructor; discriminate.
  - vm_compute. intros [H | [H | []]]; discriminate H.
Defined.

(** X10: a chosen file that carries no band tag shifts the selection: it
    takes a place among the files and none among the band numbers, so with
    such a file in front [get_single_band] returns for each band the file
    one place before the one it returns without it. *)
Theorem get_single_band_shifted :
  forall (path_name : str -> str) (other : str) (fnames : list str)
         (band_num : Z) (fname : str),
    band_number_of other = None ->
    get_single_band fnames (snd (get_bands path_name fnames)) band_num = ret fname ->
    exists (i : nat) (previous : str),
      nth_error fnames i = Some fname /\
      nth_error (other :: fnames) i = Some previous /\
      get_single_band (other :: fnames) (snd (get_bands path_name (other :: fnames))) band_num
      = ret previous.
Proof.
  intros path_name other fnames band_num fname U G.
  rewrite !get_bands_spec in *. cbn [snd] in *.
  assert (E : band_numbers_of (other :: fnames) = band_numbers_of fnames).
  { cbn [band_numbers_of flat_map]. rewrite U. reflexivity. }
  rewrite E.
  destruct (list_index (str_of_int band_num) (band_numbers_of fnames)) as [i |] eqn:I.
  - rewrite (get_single_band_found _ _ _ _ I) in G.
    rewrite (get_single_band_found _ _ _ _ I).
    unfold getitem in *.
    destruct (nth_error fnames i) as [f |] eqn:F; [| discriminate G].
    injection G as ->.
    assert (L : (i < List.length (other :: fnames))%nat).
    { cbn [List.length]. apply Nat.lt_lt_succ_r. apply nth_error_Some. congruence. }
    destruct (nth_error (other :: fnames) i) as [previous |] eqn:P;
      [| apply nth_error_None in P; lia].
    exists i, previous. repeat split; assumption.
  - rewrite (get_single_band_missing _ _ _ I) in G. discriminate G.
Qed.

Lemma get_single_band_shifted_witness :
  exists (i : nat) (previous : str),
    nth_error [lit "s_B1.TIF"; lit "s_B2.TIF"] i = Some (lit "s_B2.TIF") /\
    nth_error [lit "notes.txt"; lit "s_B1.TIF"; lit "s_B2.TIF"] i = Some previous /\
    get_single_band [lit "notes.txt"; lit "s_B1.TIF"; lit "s_B2.TIF"]
      (snd (get_bands (fun fname => fname)
              [lit "notes.txt"; lit "s_B1.TIF"; lit "s_B2.TIF"])) 2
    = ret previous.
Proof.
  apply (get_single_band_shifted (fun fname => fname) (lit "notes.txt")
           [lit "s_B1.TIF"; lit "s_B2.TIF"] 2 (lit "s_B2.TIF")); reflexivity.
Defined.
(** ** Checking that the fire bands are there *)

Lemma list_index_bound (x : str) (l : list str) (i : nat) :
  list_index x l = Some i -> (i < List.length l)%nat.
Proof.
  intros E. destruct (list_index_nth _ _ _ E) as (A & _).
  apply nth_error_Some. congruence.
Qed.

Lemma load_fire_bands_loop_spec (band_files band_numbers : list str) :
  (List.length band_numbers <= List.length band_files)%nat ->
  forall (todo : list Z) (file_locs : list str),
    Forall named todo ->
    (Forall (fun i => In (str_of_int i) band_numbers) todo ->
     snd (load_fire_bands_loop todo band_files band_numbers file_locs) = inr tt /\
     List.length (fst (load_fire_bands_loop todo band_files band_numbers file_locs))
     = (2 * List.length todo)%nat) /\
    (~ Forall (fun i => In (str_of_int i) band_numbers) todo ->
     snd (load_fire_bands_loop todo band_files band_numbers file_locs)
     = inl (Builtin RuntimeError)).
Proof.
  intros L todo. induction todo as [| i rest IH]; intros file_locs N.
  - split; [intros _; split; reflexivity | intros C; destruct C; constructor].
  - inversion N as [| ? ? Ni Nrest]; subst.
    cbn [load_fire_bands_loop].
    destruct (list_contains (str_of_int i) band_numbers) eqn:C.
    + apply list_contains_In in C.
      destruct (list_index_In _ _ C) as (b_index & E).
      pose proof (list_index_bound _ _ _ E) as Lb.
      destruct (nth_error band_files b_index) as [band_file |] eqn:F;
        [| apply nth_error_None in F; lia].
      unfold named in Ni. unfold dict_getitem.
      destruct (dict_get (str_of_int i) bands_dict) as [name |]; [| congruence].
      rewrite run_bind_ret, run_bind_print. cbv beta.
      assert (Ei : index_of (str_of_int i) band_numbers = ret b_index)
        by (unfold index_of; rewrite E; reflexivity).
      assert (Ef : getitem band_files b_index = ret band_file)
        by (unfold getitem; rewrite F; reflexivity).
      rewrite Ei, run_bind_ret, Ef, run_bind_ret, run_bind_print. cbv beta.
      rewrite (get_single_band_found _ _ _ _ E), Ef, run_bind_ret.
      cbn [fst snd List.length].
      destruct (IH (file_locs ++ [band_file]) Nrest) as (Ok & Bad).
      split.
      * intros A. inversion A as [| ? ? _ Arest]; subst.
        destruct (Ok Arest) as (S1 & S2). split; [exact S1 |].
        rewrite S2. cbn [List.length]. lia.
      * intros A. apply Bad. intros Arest. apply A. constructor; assumption.
    + split.
      * intros A. inversion A as [| ? ? Ai _]; subst.
        apply list_contains_In in Ai. congruence.
      * intros _. reflexivity.
Qed.

Lemma range_1_8_named : Forall named range_1_8.
Proof. repeat constructor; discriminate. Qed.

(** X11: given at least as many file names as band numbers,
    [load_fire_bands] returns, after two printed lines per band, exactly
    when each of the numbers 1 to 7 is among the band numbers, and raises
    [RuntimeError] otherwise; band 8 is not asked for. *)
Theorem load_fire_bands_spec :
  forall band_files band_numbers : list str,
    (List.length band_numbers <= List.length band_files)%nat ->
    let present := Forall (fun i => In (str_of_int i) band_numbers) [1; 2; 3; 4; 5; 6; 7] in
    (present ->
     snd (load_fire_bands band_files band_numbers) = inr tt /\
     List.length (fst (load_fire_bands band_files band_numbers)) = 14%nat) /\
    (~ present ->
     snd (load_fire_bands band_files band_numbers) = inl (Builtin RuntimeError)).
Proof.
  intros band_files band_numbers L present.
  exact (load_fire_bands_loop_spec band_files band_numbers L range_1_8 [] range_1_8_named).
Qed.

Lemma load_fire_bands_spec_witness :
  snd (load_fire_bands
         [lit "a_B1.TIF"; lit "a_B3.TIF"; lit "a_B2.TIF"]
         [lit "1"; lit "3"; lit "2"])
  = inl (Builtin RuntimeError).
Proof.
  refine (proj2 (load_fire_bands_spec
                   [lit "a_B1.TIF"; lit "a_B3.TIF"; lit "a_B2.TIF"]
                   [lit "1"; lit "3"; lit "2"] _) _).
  - vm_compute. lia.
  - intros F. rewrite Forall_forall in F.
    assert (I4 : In (str_of_int 4) [lit "1"; lit "3"; lit "2"])
      by (apply F; cbn; tauto).
    vm_compute in I4. destruct I4 as [E | [E | [E | []]]]; discriminate E.
Defined.

(** ** The script *)

Lemma main_raises (uniform_filter : ndarray float -> Z -> ndarray float)
  (B : bands) (edges_check : bool) :
  main uniform_filter B edges_check = Raise TypeError.
Proof. reflexivity. Qed.

(** X12: the script never gets to a classified raster: whatever the
    arguments, the files chosen and their contents, a run ends in an
    exception. *)
Theorem script_never_returns :
  forall (path_name : str -> str) (dataset : Type)
         (rio_open : str -> error + dataset) (read : dataset -> error + ndarray float)
         (uniform_filter : ndarray float -> Z -> ndarray float)
         (args fnames : list str),
  exists e : error,
    snd (script path_name dataset rio_open read uniform_filter args fnames) = inl e.
Proof.
  intros. unfold script.
  repeat (cbv zeta; apply run_bind_fails; intros ?).
  rewrite main_raises. exists (Builtin TypeError). reflexivity.
Qed.

Section OpenBand.

Variable dataset : Type.
Variable rio_open : str -> error + dataset.
Variables fnames band_numbers : list str.

Hypothesis lengths : (List.length band_numbers <= List.length fnames)%nat.
Hypothesis opens : forall fname, In fname fnames -> exists data, rio_open fname = inr data.

Lemma open_band (band_num : Z) :
  In (str_of_int band_num) band_numbers ->
  exists (fname : str) (data : dataset),
    get_single_band fnames band_numbers band_num = ret fname /\
    try (rio_open fname) = ret data.
Proof.
  intros I. destruct (list_index_In _ _ I) as (i & E).
  pose proof (list_index_bound _ _ _ E) as Lb.
  destruct (nth_error fnames i) as [fname |] eqn:F;
    [| apply nth_error_None in F; lia].
  destruct (opens fname (nth_error_In _ _ F)) as (data & O).
  exists fname, data. split.
  - rewrite (get_single_band_found _ _ _ _ E). unfold getitem. rewrite F. reflexivity.
  - unfold try. rewrite O. reflexivity.
Qed.

End OpenBand.

(** X13: with well-formed arguments, each of the bands 1 to 7 among the
    files chosen, and every file opening and reading without error, a run
    prints its fifteen lines and then ends with the [TypeError] of the shape
    check, before any pixel is classified. *)
Theorem script_type_error :
  forall (path_name : str -> str) (dataset : Type)
         (rio_open : str -> error + dataset) (read : dataset -> error + ndarray float)
         (uniform_filter : ndarray float -> Z -> ndarray float)
         (args fnames : list str) (args_dict : pydict) (options : bool * bool),
    process_args args = Return args_dict ->
    parse_options args_dict = Return options ->
    Forall (fun i => In (str_of_int i) (snd (get_bands path_name fnames)))
           [1; 2; 3; 4; 5; 6; 7] ->
    (forall fname, In fname fnames -> exists data, rio_open fname = inr data) ->
    (forall data, exists band, read data = inr band) ->
    snd (script path_name dataset rio_open read uniform_filter args fnames)
    = inl (Builtin TypeError) /\
    List.length (fst (script path_name dataset rio_open read uniform_filter args fnames))
    = 15%nat.
Proof.
  intros path_name dataset rio_open read uniform_filter args fnames args_dict options
         P O Present Opens Reads.
  unfold script. rewrite P.
  change (lift (Return args_dict)) with (ret args_dict). rewrite run_bind_ret, O.
  change (lift (Return options)) with (ret options). rewrite run_bind_ret.
  cbv zeta.
  assert (L : (List.length (snd (get_bands path_name fnames))
               <= List.length (fst (get_bands path_name fnames)))%nat).
  { rewrite get_bands_spec. cbn [fst snd]. rewrite length_map.
    apply band_numbers_of_length. }
  assert (L' : (List.length (snd (get_bands path_name fnames)) <= List.length fnames)%nat).
  { rewrite get_bands_spec. cbn [fst snd]. apply band_numbers_of_length. }
  destruct (load_fire_bands_loop_spec _ _ L range_1_8 [] range_1_8_named) as (Ok & _).
  destruct (Ok Present) as (S1 & S2). clear Ok.
  fold (load_fire_bands (fst (get_bands path_name fnames)) (snd (get_bands path_name fnames)))
    in S1, S2.
  rewrite (run_bind_ok _ _ tt S1). rewrite run_bind_print. cbv beta.
  pose proof (open_band dataset rio_open fnames _ L' Opens) as Open.
  inversion Present as [| ? ? I1 P1]; subst. inversion P1 as [| ? ? I2 P2]; subst.
  inversion P2 as [| ? ? I3 P3]; subst. inversion P3 as [| ? ? I4 P4]; subst.
  inversion P4 as [| ? ? I5 P5]; subst. inversion P5 as [| ? ? I6 P6]; subst.
  inversion P6 as [| ? ? I7 _]; subst.
  destruct (Open 1 I1) as (f1 & d1 & G1 & O1). rewrite G1, run_bind_ret, O1, run_bind_ret.
  destruct (Open 2 I2) as (f2 & d2 & G2 & O2). rewrite G2, run_bind_ret, O2, run_bind_ret.
  destruct (Open 3 I3) as (f3 & d3 & G3 & O3). rewrite G3, run_bind_ret, O3, run_bind_ret.
  destruct (Open 4 I4) as (f4 & d4 & G4 & O4). rewrite G4, run_bind_ret, O4, run_bind_ret.
  destruct (Open 5 I5) as (f5 & d5 & G5 & O5). rewrite G5, run_bind_ret, O5, run_bind_ret.
  destruct (Open 6 I6) as (f6 & d6 & G6 & O6). rewrite G6, run_bind_ret, O6, run_bind_ret.
  destruct (Open 7 I7) as (f7 & d7 & G7 & O7). rewrite G7, run_bind_ret, O7, run_bind_ret.
  destruct (Reads d1) as (b1 & R1). destruct (Reads d2) as (b2 & R2).
  destruct (Reads d3) as (b3 & R3). destruct (Reads d4) as (b4 & R4).
  destruct (Reads d5) as (b5 & R5). destruct (Reads d6) as (b6 & R6).
  destruct (Reads d7) as (b7 & R7).
  rewrite R1, R2, R3, R4, R5, R6, R7.
  change (@try (ndarray float) (inr b1)) with (ret b1). rewrite run_bind_ret.
  change (@try (ndarray float) (inr b2)) with (ret b2). rewrite run_bind_ret.
  change (@try (ndarray float) (inr b3)) with (ret b3). rewrite run_bind_ret.
  change (@try (ndarray float) (inr b4)) with (ret b4). rewrite run_bind_ret.
  change (@try (ndarray float) (inr b5)) with (ret b5). rewrite run_bind_ret.
  change (@try (ndarray float) (inr b6)) with (ret b6). rewrite run_bind_ret.
  change (@try (ndarray float) (inr b7)) with (ret b7). rewrite run_bind_ret.
  rewrite main_raises. cbn [lift raise fst snd].
  split; [reflexivity |].
  rewrite length_app, S2. reflexivity.
Qed.

Lemma script_type_error_witness :
  let fnames :=
    [lit "s_B1.TIF"; lit "s_B2.TIF"; lit "s_B3.TIF"; lit "s_B4.TIF";
     lit "s_B5.TIF"; lit "s_B6.TIF"; lit "s_B7.TIF"] in
  snd (script (fun fname => fname) unit (fun _ => inr tt)
         (fun _ => inr (full px F64.one)) (fun a _ => a)
         [lit "LandsatFire_v1_0.py"] fnames)
  = inl (Builtin TypeError).
Proof.
  cbv zeta.
  refine (proj1 (script_type_error (fun fname => fname) unit (fun _ => inr tt)
                   (fun _ => inr (full px F64.one)) (fun a _ => a)
                   [lit "LandsatFire_v1_0.py"] _ [] (false, true) _ _ _ _ _)).
  - reflexivity.
  - reflexivity.
  - repeat (apply Forall_cons; [apply list_contains_In; reflexivity |]).
    apply Forall_nil.
  - intros fname _. exists tt. reflexivity.
  - intros data. eexists. reflexivity.
Defined.

(** ** The base name *)

Lemma common_prefix_app (p a b : str) :
  common_prefix (p ++ a) (p ++ b) = p ++ common_prefix a b.
Proof.
  induction p as [| c p IH]; [reflexivity |].
  cbn [app common_prefix]. rewrite Ascii.eqb_refl, IH. reflexivity.
Qed.

Lemma fold_common_prefix_app (p : str) (tails : list str) (t : str) :
  fold_left common_prefix (map (app p) tails) (p ++ t)
  = p ++ fold_left common_prefix tails t.
Proof.
  revert t. induction tails as [| u tails IH]; intros t; [reflexivity |].
  cbn [map fold_left]. rewrite common_prefix_app. apply IH.
Qed.

Lemma commonprefix_app (p : str) (tails : list str) :
  tails <> [] -> commonprefix (map (app p) tails) = p ++ commonprefix tails.
Proof.
  destruct tails as [| t tails]; [congruence |]. intros _.
  cbn [map commonprefix]. apply fold_common_prefix_app.
Qed.

Lemma lstrip_all (chars : list ascii) (t s : str) :
  forallb (fun c => existsb (Ascii.eqb c) chars) t = true ->
  lstrip chars (t ++ s) = lstrip chars s.
Proof.
  induction t as [| c t IH]; intros A; [reflexivity |].
  cbn [forallb] in A. apply andb_true_iff in A. destruct A as [A1 A2].
  cbn [app lstrip]. rewrite A1. apply IH. exact A2.
Qed.

Lemma lstrip_app (chars : list ascii) (s t : str) :
  lstrip chars (s ++ t) =
  match lstrip chars s with
  | [] => lstrip chars t
  | _ :: _ => lstrip chars s ++ t
  end.
Proof.
  induction s as [| c s IH]; [reflexivity |].
  cbn [app lstrip]. destruct (existsb (Ascii.eqb c) chars); [exact IH | reflexivity].
Qed.

Lemma strip_suffix (chars : list ascii) (s t : str) :
  forallb (fun c => existsb (Ascii.eqb c) chars) t = true ->
  strip chars (s ++ t) = strip chars s.
Proof.
  intros A. unfold strip. rewrite lstrip_app.
  destruct (lstrip chars s) as [| c r] eqn:E.
  - rewrite <- (app_nil_r t), (lstrip_all _ _ _ A). reflexivity.
  - rewrite rev_app_distr, lstrip_all; [reflexivity |].
    rewrite forallb_forall in *. intros x Hx. apply A. apply in_rev. exact Hx.
Qed.

Lemma strip_stripped (chars : list ascii) (s : str) : stripped chars s -> strip chars s = s.
Proof.
  intros (E1 & E2). unfold strip. rewrite E1, E2. apply rev_involutive.
Qed.

(** X14: for files named [base_B<band>...], at least two of them differing
    right after the [_B], [base_name] is the base with the characters [_]
    and [B] stripped from both its ends: the base itself when it has
    nothing to strip. *)
Theorem base_name_of_band_files :
  forall (base : str) (tails : list str),
    tails <> [] ->
    commonprefix tails = [] ->
    base_name (map (fun tail => base ++ lit "_B" ++ tail) tails) = strip (lit "_B") base /\
    (stripped (lit "_B") base ->
     base_name (map (fun tail => base ++ lit "_B" ++ tail) tails) = base).
Proof.
  intros base tails N C.
  assert (P : commonprefix (map (fun tail => base ++ lit "_B" ++ tail) tails)
              = base ++ lit "_B").
  { rewrite (map_ext (fun tail => base ++ lit "_B" ++ tail) (app (base ++ lit "_B")))
      by (intros; rewrite <- app_assoc; reflexivity).
    rewrite (commonprefix_app _ _ N), C. apply app_nil_r. }
  assert (E : base_name (map (fun tail => base ++ lit "_B" ++ tail) tails)
              = strip (lit "_B") base).
  { unfold base_name. rewrite P. apply strip_suffix. reflexivity. }
  split; [exact E |].
  intros S. rewrite E. apply strip_stripped. exact S.
Qed.

Lemma base_name_of_band_files_witness :
  base_name (map (fun tail => lit "LC08_T1" ++ lit "_B" ++ tail)
               [lit "5.TIF"; lit "7.TIF"])
  = lit "LC08_T1".
Proof.
  refine (proj2 (base_name_of_band_files (lit "LC08_T1") [lit "5.TIF"; lit "7.TIF"] _ _) _).
  - discriminate.
  - reflexivity.
  - split; reflexivity.
Defined.

(** ** The classified raster and its labels *)

Lemma classify_item (uniform_filter : ndarray float -> Z -> ndarray float) (B : bands)
  (edges_check : bool) (i j : nat) :
  item (classify uniform_filter B edges_check) i j =
  (if item (dn_fold B) i j then 1 else 0)
  + (if item (unambiguous_fire B) i j then 2 else 0)
  + match ma_getitem (potential_fire uniform_filter B (background_of B) edges_check) i j with
    | Some true => 3
    | _ => 0
    end.
Proof. unfold classify. apply make_classified_array_item. Qed.

Lemma background_of_true (B : bands) (i j : nat) :
  item (background_of B) i j = true ->
  item (unambiguous_fire B) i j = false /\
  item (water_pixels B) i j = false /\
  F64.gtb (item (band7 B) i j) F64.zero = true.
Proof.
  unfold background_of. rewrite background_item. intros H.
  apply andb_true_iff in H. destruct H as [H G].
  apply negb_true_iff, orb_false_iff in H. tauto.
Qed.

Lemma potential_fire_true_cases
  (uniform_filter : ndarray float -> Z -> ndarray float) (B : bands)
  (bg_array : ndarray bool) (mask_edges : bool) (i j : nat) :
  ma_getitem (potential_fire uniform_filter B bg_array mask_edges) i j = Some true ->
  ma_getitem (potential_array_0 uniform_filter B bg_array) i j = Some true /\
  (mask_edges = true ->
   in_grid (shape (band7 B)) i j && in_border (shape (band7 B)) i j = false).
Proof.
  destruct mask_edges.
  - rewrite potential_fire_masked_edges_getitem.
    destruct (in_grid _ i j && in_border _ i j); [discriminate |].
    intros H. split; [exact H | reflexivity].
  - intros H. split; [exact H | discriminate].
Qed.

(** X15: the label of a classified value, as the export looks it up in
    [out_classes]: a pixel that is potential fire and DN fold (value 4) has
    no label and the lookup raises [IndexError]; a pixel that is DN fold and
    unambiguous fire (value 3) gets the label of potential fire; every
    other pixel gets the label of its one class. *)
Theorem class_label_of_classified :
  forall (uniform_filter : ndarray float -> Z -> ndarray float) (B : bands)
         (edges_check : bool) (i j : nat),
    class_label (item (classify uniform_filter B edges_check) i j) =
    match ma_getitem (potential_fire uniform_filter B (background_of B) edges_check) i j with
    | Some true =>
        if item (dn_fold B) i j then raise IndexError else ret (lit "POTENTIAL FIRE")
    | _ =>
        match item (dn_fold B) i j, item (unambiguous_fire B) i j with
        | false, false => ret (lit "BACKGROUND")
        | true, false => ret (lit "DN FOLD")
        | false, true => ret (lit "FIRE")
        | true, true => ret (lit "POTENTIAL FIRE")
        end
    end.
Proof.
  intros uf B e i j. rewrite classify_item.
  pose proof (potential_fire_true_on_background uf B (background_of B) e i j) as P.
  destruct (ma_getitem (potential_fire uf B (background_of B) e) i j) as [[|] |].
  - destruct (background_of_true B i j (P eq_refl)) as (-> & _).
    destruct (item (dn_fold B) i j); reflexivity.
  - destruct (item (dn_fold B) i j), (item (unambiguous_fire B) i j); reflexivity.
  - destruct (item (dn_fold B) i j), (item (unambiguous_fire B) i j); reflexivity.
Qed.

(** X16: on a scene with a dimension of 60 pixels or less (the size the
    shape check warns about), with the edges masked every pixel lies in the
    border: no pixel is potential fire, and the classified value is 1 for DN
    fold plus 2 for unambiguous fire. *)
Theorem classify_small_scene :
  forall (uniform_filter : ndarray float -> Z -> ndarray float) (B : bands) (i j : nat),
    (fst (shape (band7 B)) <= 60 \/ snd (shape (band7 B)) <= 60)%nat ->
    in_grid (shape (band7 B)) i j = true ->
    ma_getitem (potential_fire uniform_filter B (background_of B) true) i j = Some false /\
    item (classify uniform_filter B true) i j =
    (if item (dn_fold B) i j then 1 else 0)
    + (if item (unambiguous_fire B) i j then 2 else 0).
Proof.
  intros uf B i j S G.
  assert (P : ma_getitem (potential_fire uf B (background_of B) true) i j = Some false).
  { rewrite potential_fire_masked_edges_getitem, G. cbn [andb].
    replace (in_border (shape (band7 B)) i j) with true; [reflexivity |].
    symmetry. unfold in_border. rewrite !orb_true_iff.
    rewrite !Nat.ltb_lt, !Nat.leb_le. lia. }
  split; [exact P |].
  rewrite classify_item, P. lia.
Qed.

Lemma classify_small_scene_witness :
  item (classify (fun a _ => a) (fire_scene (40, 100)%nat) true) 20 50 = 2.
Proof.
  refine (proj2 (classify_small_scene (fun a _ => a) (fire_scene (40, 100)%nat) 20 50 _ _)).
  - left. vm_compute. lia.
  - reflexivity.
Defined.

(** X17: a pixel of the potential-fire layer that is an unmasked TRUE lies
    on the background (it is not unambiguous fire, not water, and its band7
    is above 0), passes the direct thresholds on ratio75, diff75 and
    ratio76 and the adaptive test; with the edges masked it lies outside
    the border; its classified value is 3, or 4 on a DN-fold pixel. *)
Theorem potential_fire_sound :
  forall (uniform_filter : ndarray float -> Z -> ndarray float) (B : bands)
         (edges_check : bool) (i j : nat),
    ma_getitem (potential_fire uniform_filter B (background_of B) edges_check) i j
    = Some true ->
    item (unambiguous_fire B) i j = false /\
    item (water_pixels B) i j = false /\
    F64.gtb (item (band7 B) i j) F64.zero = true /\
    F64.gtb (item (ratio75 B) i j) (F64.dec 18 10) = true /\
    F64.gtb (item (diff75 B) i j) (F64.dec 17 100) = true /\
    F64.gtb (item (ratio76 B) i j) (F64.dec 16 10) = true /\
    F64.gtb (item (ratio75 B) i j)
            (item (ratio75_stddev uniform_filter B (background_of B)) i j) = true /\
    F64.gtb (item (band7 B) i j)
            (item (b7_stddev uniform_filter B (background_of B)) i j) = true /\
    (edges_check = true -> in_grid (shape (band7 B)) i j = true ->
     in_border (shape (band7 B)) i j = false) /\
    item (classify uniform_filter B edges_check) i j
    = 3 + (if item (dn_fold B) i j then 1 else 0).
Proof.
  intros uf B e i j T.
  pose proof (potential_fire_true_on_background uf B (background_of B) e i j T) as Bg.
  destruct (background_of_true B i j Bg) as (U & W & G).
  destruct (potential_fire_true_cases uf B (background_of B) e i j T) as (P0 & Edge).
  rewrite potential_array_0_getitem, Bg in P0.
  apply (f_equal (fun o => match o with Some b => b | None => true end)) in P0.
  cbv beta iota in P0.
  apply andb_true_iff in P0. destruct P0 as [D A].
  unfold direct_test in D. rewrite !andb_true_iff in D. destruct D as ((D1 & D2) & D3).
  change (item (data (potential_test_4 uf B (background_of B))) i j)
    with (F64.gtb (item (ratio75 B) i j) (item (ratio75_stddev uf B (background_of B)) i j)
          && F64.gtb (item (band7 B) i j) (item (b7_stddev uf B (background_of B)) i j))
    in A.
  apply andb_true_iff in A. destruct A as [A1 A2].
  repeat (split; [assumption |]).
  split.
  - intros E In. specialize (Edge E). rewrite In in Edge. exact Edge.
  - rewrite classify_item, T, U. destruct (item (dn_fold B) i j); reflexivity.
Qed.

Lemma potential_fire_sound_witness :
  item (classify scipy_uniform_filter (fold_and_fire_scene (100, 100)%nat) false) 0 0
  = 3 + (if item (dn_fold (fold_and_fire_scene (100, 100)%nat)) 0 0 then 1 else 0).
Proof.
  apply (potential_fire_sound scipy_uniform_filter (fold_and_fire_scene (100, 100)%nat)
           false 0 0).
  exact (fold_and_fire_potential (100, 100)%nat 0%nat 0%nat).
Defined.

Lemma water_not_unambiguous (B : bands) (i j : nat) :
  F64.valid (item (band5 B) i j) = true ->
  F64.valid (item (band6 B) i j) = true ->
  F64.valid (item (band7 B) i j) = true ->
  item (water_pixels B) i j = true ->
  item (unambiguous_fire B) i j = false.
Proof.
  intros V5 V6 V7 Hw. apply water_pixels_iff in Hw.
  destruct Hw as [(_ & H56 & H67 & _) _].
  assert (D : F64.gtb (item (diff75 B) i j) (F64.dec 3 10) = false).
  { unfold diff75. rewrite item_map2.
    apply sub_of_smaller_not_above; try assumption.
    - vm_compute. exact I.
    - apply (ltb_ord _ _ V7 V6) in H67. apply (ltb_ord _ _ V6 V5) in H56. lia. }
  change (item (unambiguous_fire B) i j)
    with (F64.gtb (item (ratio75 B) i j) (F64.dec 25 10)
          && (F64.gtb (item (diff75 B) i j) (F64.dec 3 10)
              && F64.gtb (item (band7 B) i j) (F64.dec 5 10))).
  rewrite D. apply andb_false_r.
Qed.

(** X18: on well-formed band values a water pixel is never reported as
    fire: it is neither unambiguous nor potential fire, whatever the edge
    flag, and its classified value is 1 if it is DN fold and 0 otherwise. *)
Theorem water_pixel_class :
  forall (uniform_filter : ndarray float -> Z -> ndarray float) (B : bands)
         (edges_check : bool) (i j : nat),
    F64.valid (item (band5 B) i j) = true ->
    F64.valid (item (band6 B) i j) = true ->
    F64.valid (item (band7 B) i j) = true ->
    item (water_pixels B) i j = true ->
    item (unambiguous_fire B) i j = false /\
    ma_getitem (potential_fire uniform_filter B (background_of B) edges_check) i j
    <> Some true /\
    item (classify uniform_filter B edges_check) i j
    = (if item (dn_fold B) i j then 1 else 0).
Proof.
  intros uf B e i j V5 V6 V7 W.
  pose proof (water_not_unambiguous B i j V5 V6 V7 W) as U.
  assert (P : ma_getitem (potential_fire uf B (background_of B) e) i j <> Some true).
  { intros T. apply potential_fire_true_on_background in T.
    destruct (background_of_true B i j T) as (_ & W' & _). congruence. }
  split; [exact U | split; [exact P |]].
  rewrite classify_item, U.
  destruct (ma_getitem (potential_fire uf B (background_of B) e) i j) as [[|] |];
    [contradiction P; reflexivity | |]; destruct (item (dn_fold B) i j); reflexivity.
Qed.

Lemma water_pixel_class_witness :
  item (classify (fun a _ => a) water_scene true) 0 0
  = (if item (dn_fold water_scene) 0 0 then 1 else 0).
Proof.
  apply (water_pixel_class (fun a _ => a) water_scene true 0 0); vm_compute; reflexivity.
Defined.

Lemma not_above_zero_not_above (x c : float) :
  F64.gtb x F64.zero = false -> F64.ltb F64.zero c = true -> F64.gtb x c = false.
Proof.
  unfold F64.ltb, F64.gtb, F64.zero, SFltb.
  destruct x as [[|] | [|] | | [|] mx ex], c as [[|] | [|] | | [|] mc ec];
    cbn; intros H1 H2; try discriminate H1; try discriminate H2; reflexivity.
Qed.

(** X19: a pixel whose band7 is not above 0 (zero, negative or NaN, the
    fill values of a scene) is never reported as fire: it is neither
    unambiguous nor potential fire, whatever the edge flag, and its
    classified value is 1 if it is DN fold and 0 otherwise. *)
Theorem nodata_pixel_class :
  forall (uniform_filter : ndarray float -> Z -> ndarray float) (B : bands)
         (edges_check : bool) (i j : nat),
    F64.gtb (item (band7 B) i j) F64.zero = false ->
    item (unambiguous_fire B) i j = false /\
    ma_getitem (potential_fire uniform_filter B (background_of B) edges_check) i j
    <> Some true /\
    item (classify uniform_filter B edges_check) i j
    = (if item (dn_fold B) i j then 1 else 0).
Proof.
  intros uf B e i j Z7.
  assert (U : item (unambiguous_fire B) i j = false).
  { change (item (unambiguous_fire B) i j)
      with (F64.gtb (item (ratio75 B) i j) (F64.dec 25 10)
            && (F64.gtb (item (diff75 B) i j) (F64.dec 3 10)
                && F64.gtb (item (band7 B) i j) (F64.dec 5 10))).
    rewrite (not_above_zero_not_above _ (F64.dec 5 10) Z7) by (vm_compute; reflexivity).
    rewrite !andb_false_r. reflexivity. }
  assert (P : ma_getitem (potential_fire uf B (background_of B) e) i j <> Some true).
  { intros T. apply potential_fire_true_on_background in T.
    destruct (background_of_true B i j T) as (_ & _ & G).
    rewrite Z7 in G. discriminate G. }
  split; [exact U | split; [exact P |]].
  rewrite classify_item, U.
  destruct (ma_getitem (potential_fire uf B (background_of B) e) i j) as [[|] |];
    [contradiction P; reflexivity | |]; destruct (item (dn_fold B) i j); reflexivity.
Qed.

Lemma nodata_pixel_class_witness :
  F64.gtb (item (band7 (nodata_scene (100, 100)%nat)) 50 50) F64.zero = false /\
  ma_getitem (potential_fire scipy_uniform_filter (nodata_scene (100, 100)%nat)
                (background_of (nodata_scene (100, 100)%nat)) false) 50 50
  <> Some true /\
  item (classify scipy_uniform_filter (nodata_scene (100, 100)%nat) false) 50 50
  = (if item (dn_fold (nodata_scene (100, 100)%nat)) 50 50 then 1 else 0).
Proof.
  split; [reflexivity |].
  apply (nodata_pixel_class scipy_uniform_filter (nodata_scene (100, 100)%nat) false 50 50).
  reflexivity.
Defined.
